(** * Soft delete for Django models: a shallow embedding of
      [apps/common/models.py]

    The module defines three classes: [SoftDeleteQuerySet] (bulk operations on
    a filtered collection), [SoftDeleteManager] (the entry points that build
    such collections) and the abstract [SoftDeleteModel] (the per-record
    [delete], [restore] and [hard_delete]).

    The Django ORM underneath is not part of the module.  What the module uses
    of it is written out here at the level the module observes it: a database
    is a list of rows, a queryset is a model name with a conjunction of
    lookups, [update] rewrites the selected rows in place and answers how many
    it selected, [save] writes an instance back under its primary key, and a
    reverse accessor of a relation is either a related manager (to-many) or a
    single object (one-to-one).  A related manager answers the prefetch
    cache of its instance when there is one, and its own queryset
    otherwise. *)

From Stdlib Require Import List String ZArith Bool Lia PeanoNat.
Import ListNotations.
Open Scope string_scope.

(** ** Rows and instances *)

Definition ModelName := string.
Definition FieldName := string.
Definition Timestamp := Z.

(** A record of a model, as a row of the database and as an instance in
    memory.  [refs] holds the foreign keys of the row: column name and the
    primary key it points to.  Lines 51-52 give the two fields every
    [SoftDeleteModel] has. *)
Record Entity := mkEntity {
  model : ModelName;
  pk : nat;
  refs : list (FieldName * nat);
  is_deleted : bool;
  deleted_at : option Timestamp
}.

(** Assignment to the two flag fields, on an instance or by an UPDATE. *)
Definition set_flags (flag : bool) (stamp : option Timestamp) (e : Entity) : Entity :=
  {| model := model e; pk := pk e; refs := refs e;
     is_deleted := flag; deleted_at := stamp |}.

(** A new record: [is_deleted] defaults to [False] (line 51) and
    [deleted_at], nullable and without a default, to [None] (line 52). *)
Definition new_entity (m : ModelName) (k : nat) (r : list (FieldName * nat)) : Entity :=
  {| model := m; pk := k; refs := r; is_deleted := false; deleted_at := None |}.

Fixpoint ref_of (f : FieldName) (r : list (FieldName * nat)) : option nat :=
  match r with
  | [] => None
  | (g, k) :: r' => if String.eqb g f then Some k else ref_of f r'
  end.

Definition same_key (a b : Entity) : bool :=
  String.eqb (model a) (model b) && Nat.eqb (pk a) (pk b).

(** The key of a row: its model and its primary key. *)
Definition key (e : Entity) : ModelName * nat := (model e, pk e).

(** ** Querysets *)

Inductive Lookup :=
| IsDeleted (b : bool)                       (* filter(is_deleted=b) *)
| RefersTo (field : FieldName) (target : nat). (* the filter of a related manager *)

Record QuerySet := mkQuerySet {
  qs_model : ModelName;
  qs_where : list Lookup
}.

Definition holds (l : Lookup) (e : Entity) : bool :=
  match l with
  | IsDeleted b => Bool.eqb (is_deleted e) b
  | RefersTo f k =>
      match ref_of f (refs e) with
      | Some k' => Nat.eqb k' k
      | None => false
      end
  end.

Definition selects (qs : QuerySet) (e : Entity) : bool :=
  String.eqb (model e) (qs_model qs) && forallb (fun l => holds l e) (qs_where qs).

(** The rows a queryset evaluates to. *)
Definition rows (qs : QuerySet) (db : list Entity) : list Entity :=
  filter (selects qs) db.

Definition qs_filter (l : Lookup) (qs : QuerySet) : QuerySet :=
  {| qs_model := qs_model qs; qs_where := qs_where qs ++ [l] |}.

(** ** The world: database, clock and log of statements *)

Inductive Statement :=
| SaveRow (m : ModelName) (k : nat)
| UpdateRows (qs : QuerySet) (flag : bool) (stamp : option Timestamp)
| PhysicalDelete (m : ModelName) (k : nat).

Record World := mkWorld {
  db : list Entity;
  reads : nat;          (* how many times [now()] was called *)
  writes : list Statement   (* the statements issued, oldest first *)
}.

(** Code that reads and writes the world. *)
Definition M (A : Type) : Type := World -> A * World.

Definition ret {A} (a : A) : M A := fun w => (a, w).

Definition bind {A B} (c : M A) (k : A -> M B) : M B :=
  fun w => let (a, w') := c w in k a w'.

Notation "x <- c ;; k" := (bind c (fun x => k))
  (at level 61, c at next level, right associativity).
Notation "c ;;; k" := (bind c (fun _ => k))
  (at level 61, right associativity).

Fixpoint for_each {A} (l : list A) (body : A -> M unit) : M unit :=
  match l with
  | [] => ret tt
  | a :: l' => body a ;;; for_each l' body
  end.

(** [QuerySet.update(is_deleted=flag, deleted_at=stamp)]: one UPDATE over the
    selected rows; the answer is the number of rows selected. *)
Definition update (qs : QuerySet) (flag : bool) (stamp : option Timestamp) : M nat :=
  fun w =>
    (List.length (rows qs (db w)),
     {| db := map (fun e => if selects qs e then set_flags flag stamp e else e) (db w);
        reads := reads w;
        writes := writes w ++ [UpdateRows qs flag stamp] |}).

(** [Model.save()]: UPDATE the row with the instance's key, INSERT when there
    is none. *)
Definition save (self : Entity) : M unit :=
  fun w =>
    (tt,
     {| db := if existsb (same_key self) (db w)
              then map (fun e => if same_key self e then self else e) (db w)
              else db w ++ [self];
        reads := reads w;
        writes := writes w ++ [SaveRow (model self) (pk self)] |}).

(** ** Relations and managers *)

Inductive OnDelete := CASCADE | PROTECT | RESTRICT | SET_NULL | SET_DEFAULT | DO_NOTHING.

Definition is_CASCADE (p : OnDelete) : bool :=
  match p with CASCADE => true | _ => false end.

(** The two manager classes of the module: Django's [Manager] (line 54) and
    [SoftDeleteManager] (line 55). *)
Inductive ManagerClass := DjangoManager | SoftDeleteManagerClass.

(** What the reverse accessor of a relation is: a related manager for a
    foreign key, the related object itself for a one-to-one field. *)
Inductive RelKind := ManyToOneRel | OneToOneRel.

(** An element of [_meta.related_objects]: a relation that points at this
    model.  A many-to-many relation has no [on_delete] and so never passes
    line 68; it is any relation here that is not [CASCADE]. *)
Record ForeignObjectRel := mkRel {
  on_delete : OnDelete;
  rel_kind : RelKind;
  related_model : ModelName;
  rel_field : FieldName      (* the column of [related_model] that points here *)
}.

(** The metadata of a model class. *)
Record Options := mkOptions {
  related_objects : list ForeignObjectRel;
  soft : bool;                             (* issubclass(model, SoftDeleteModel) *)
  default_manager_class : ManagerClass     (* the class of [_default_manager] *)
}.

(** A manager; [mgr_rel] is the filter a related manager adds to every
    queryset it builds with [get_queryset], empty for a manager reached
    through the model class.  [mgr_cache] is the entry of the accessor in
    [instance._prefetched_objects_cache]: the lookups of the queryset the
    instance was prefetched with ([prefetch_related], [Prefetch(...,
    queryset=...)]), [None] when the instance has no such entry and for a
    manager reached through the model class. *)
Record Manager := mkManager {
  mgr_class : ManagerClass;
  mgr_model : ModelName;
  mgr_rel : list Lookup;
  mgr_cache : option (list Lookup)
}.

(** [instance._prefetched_objects_cache], by relation. *)
Definition PrefetchCache := ForeignObjectRel -> option (list Lookup).

(** The value of [getattr(self, related_name, None)]. *)
Inductive Attr :=
| AttrNone                     (* no such attribute, or no related object *)
| AttrObject (e : Entity)      (* the related object of a one-to-one relation *)
| AttrManager (m : Manager).   (* a related manager *)

(** [now()]: the next reading of the clock.  The clock is any sequence of
    timestamps; the world counts the readings taken. *)
Definition now (clock : nat -> Timestamp) : M Timestamp :=
  fun w => (clock (reads w),
            {| db := db w; reads := S (reads w); writes := writes w |}).

(** ** class SoftDeleteQuerySet (lines 6-31) *)
Module SoftDeleteQuerySet.

(** [SoftDeleteQuerySet(model, using=...)]. *)
Definition new (m : ModelName) : QuerySet := {| qs_model := m; qs_where := [] |}.

Definition deleted (self : QuerySet) : QuerySet := qs_filter (IsDeleted true) self.

Definition active (self : QuerySet) : QuerySet := qs_filter (IsDeleted false) self.

Section Bulk.
Variable clock : nat -> Timestamp.
(** [super().delete()] of line 19: Django's own [QuerySet.delete]. *)
Variable QuerySet_delete : QuerySet -> M nat.

Definition _soft_delete (self : QuerySet) : M nat :=
  t <- now clock ;; update self true (Some t).

Definition delete (self : QuerySet) : M nat := _soft_delete self.

Definition hard_delete (self : QuerySet) : M nat := QuerySet_delete self.

Definition restore (self : QuerySet) : M nat := update self false None.

End Bulk.

End SoftDeleteQuerySet.

(** ** class SoftDeleteManager (lines 34-46), and Django's [Manager] *)
Module SoftDeleteManager.

Definition get_queryset (m : ModelName) : QuerySet :=
  SoftDeleteQuerySet.active (SoftDeleteQuerySet.new m).

Definition get_all (m : ModelName) : QuerySet := SoftDeleteQuerySet.new m.

Definition deleted_only (m : ModelName) : QuerySet :=
  SoftDeleteQuerySet.deleted (SoftDeleteQuerySet.new m).

End SoftDeleteManager.

Definition apply_rel_filters (m : Manager) (qs : QuerySet) : QuerySet :=
  {| qs_model := qs_model qs; qs_where := qs_where qs ++ mgr_rel m |}.

(** [manager.get_queryset()].  A related manager first looks for the entry
    of its accessor in the prefetch cache of its instance and answers that
    queryset, the prefetched one with the relation filter; without an entry
    it answers the queryset of the manager's class, to which it adds its
    relation filter. *)
Definition get_queryset (m : Manager) : QuerySet :=
  match mgr_cache m with
  | Some prefetched =>
      apply_rel_filters m {| qs_model := mgr_model m; qs_where := prefetched |}
  | None =>
      apply_rel_filters m
        match mgr_class m with
        | DjangoManager => SoftDeleteQuerySet.new (mgr_model m)
        | SoftDeleteManagerClass => SoftDeleteManager.get_queryset (mgr_model m)
        end
  end.

(** [manager.all()] is [get_queryset()]. *)
Definition all (m : Manager) : QuerySet := get_queryset m.

(** Truth value of an attribute in a condition: [None] is false, an object
    or a manager is true. *)
Definition truthy (a : Attr) : bool :=
  match a with
  | AttrNone => false
  | AttrObject _ => true
  | AttrManager _ => true
  end.

(** [hasattr(a, "all")]: managers have it, [None] and model instances do
    not. *)
Definition hasattr_all (a : Attr) : bool :=
  match a with
  | AttrManager _ => true
  | AttrObject _ => false
  | AttrNone => false
  end.

(** Only [SoftDeleteManager] defines [deleted_only] (line 44). *)
Definition defines_deleted_only (c : ManagerClass) : bool :=
  match c with
  | DjangoManager => false
  | SoftDeleteManagerClass => true
  end.

(** [hasattr(a, "deleted_only")]. *)
Definition hasattr_deleted_only (a : Attr) : bool :=
  match a with
  | AttrManager m => defines_deleted_only (mgr_class m)
  | AttrObject _ => false
  | AttrNone => false
  end.

(** [manager.deleted_only()] (lines 44-46) builds its queryset from the model
    class, not from [get_queryset]: the relation filter is not applied. *)
Definition deleted_only (m : Manager) : QuerySet :=
  SoftDeleteManager.deleted_only (mgr_model m).

(** The queryset of the records that point at key [k] through [related]. *)
Definition pointing_at (related : ForeignObjectRel) (k : nat) : QuerySet :=
  {| qs_model := related_model related;
     qs_where := [RefersTo (rel_field related) k] |}.

(** ** The physical delete of a record *)

(** [e] is one of the records with keys [ks]. *)
Definition in_keys (ks : list (ModelName * nat)) (e : Entity) : bool :=
  existsb (fun k => String.eqb (fst k) (model e) && Nat.eqb (snd k) (pk e)) ks.

(** [e] points at one of the records [ks] through a relation whose policy
    satisfies [p]. *)
Definition points_at (meta : ModelName -> Options) (p : OnDelete -> bool)
           (ks : list (ModelName * nat)) (e : Entity) : bool :=
  existsb (fun k =>
             existsb (fun related =>
                        p (on_delete related)
                        && selects (pointing_at related (snd k)) e)
                     (related_objects (meta (fst k))))
          ks.

(** The records a physical delete takes along: those that point at a record
    already taken through a [CASCADE] relation, round after round.  With as
    many rounds as there are rows, no further round adds a record. *)
Fixpoint collect (meta : ModelName -> Options) (fuel : nat) (table : list Entity)
         (ks : list (ModelName * nat)) : list (ModelName * nat) :=
  match fuel with
  | 0 => ks
  | S fuel' =>
      collect meta fuel' table
        (ks ++ map key (filter (fun e => points_at meta is_CASCADE ks e
                                         && negb (in_keys ks e)) table))
  end.

(** The keys a physical delete of [self] may take: the key of [self], and
    the key of every row that points at a taken key through a [CASCADE]
    relation. *)
Inductive taken (meta : ModelName -> Options) (table : list Entity) (self : Entity)
  : ModelName * nat -> Prop :=
| taken_self : taken meta table self (key self)
| taken_next (k : ModelName * nat) (e : Entity) :
    taken meta table self k -> In e table ->
    points_at meta is_CASCADE [k] e = true ->
    taken meta table self (key e).

Definition is_PROTECT (p : OnDelete) : bool :=
  match p with PROTECT => true | _ => false end.

Definition is_RESTRICT (p : OnDelete) : bool :=
  match p with RESTRICT => true | _ => false end.

Definition is_SET_NULL (p : OnDelete) : bool :=
  match p with SET_NULL => true | _ => false end.

Definition is_SET_DEFAULT (p : OnDelete) : bool :=
  match p with SET_DEFAULT => true | _ => false end.

(** The delete is refused: a record points at a record to delete through a
    [PROTECT] relation, or a record that stays does so through a [RESTRICT]
    relation.  A record that stays and points through [SET_DEFAULT] needs the
    default of its column, which the metadata here do not hold: the delete
    is not answered either. *)
Definition refused (meta : ModelName -> Options) (ks : list (ModelName * nat))
           (table : list Entity) : bool :=
  existsb (fun e =>
             points_at meta is_PROTECT ks e
             || (negb (in_keys ks e)
                 && points_at meta (fun p => is_RESTRICT p || is_SET_DEFAULT p) ks e))
          table.

Definition drop_ref (f : FieldName) (r : list (FieldName * nat)) : list (FieldName * nat) :=
  filter (fun p => negb (String.eqb (fst p) f)) r.

(** [SET_NULL]: a record that stays loses its reference to a deleted
    record. *)
Definition set_null_through (k : ModelName * nat) (e : Entity) (related : ForeignObjectRel) : Entity :=
  if is_SET_NULL (on_delete related) && selects (pointing_at related (snd k)) e
  then {| model := model e; pk := pk e;
          refs := drop_ref (rel_field related) (refs e);
          is_deleted := is_deleted e; deleted_at := deleted_at e |}
  else e.

Definition set_null (meta : ModelName -> Options) (ks : list (ModelName * nat))
           (e : Entity) : Entity :=
  fold_left (fun e k => fold_left (set_null_through k)
                                  (related_objects (meta (fst k))) e)
            ks e.

(** Modelled from the spec: the physical delete of the persistence layer for
    a single record, which the module reaches as [super().delete()] and which
    is not part of it.  The spec (4.3, 6, 8) asks of it that it removes the
    record for good, so that no accessor finds it again, and leaves the
    referential actions to the storage layer, "applied unchanged".  They are
    enforced here as the relations declare them: the records that point at a
    deleted record through [CASCADE] are deleted with it, those that point
    through [SET_NULL] lose the reference, [DO_NOTHING] does nothing, and
    [PROTECT] and [RESTRICT] refuse the delete, which then stores nothing
    and answers [None].  The answer is the number of rows deleted.  The flags
    are neither read nor written. *)
Definition Model_delete (meta : ModelName -> Options) (self : Entity)
           (w : World) : option (nat * World) :=
  let ks := collect meta (List.length (db w)) (db w) [key self] in
  if refused meta ks (db w) then None
  else
    Some (List.length (filter (in_keys ks) (db w)),
          {| db := map (set_null meta ks)
                       (filter (fun e => negb (in_keys ks e)) (db w));
             reads := reads w;
             writes := writes w
                       ++ map (fun e => PhysicalDelete (model e) (pk e))
                              (filter (in_keys ks) (db w)) |}).

(** ** class SoftDeleteModel (lines 49-101) *)
Module SoftDeleteModel.

Section Model.
Variable clock : nat -> Timestamp.
(** [model_class._meta], and [issubclass(model_class, SoftDeleteModel)]. *)
Variable meta : ModelName -> Options.
(** [self._prefetched_objects_cache]: neither method changes it. *)
Variable prefetched : PrefetchCache.

(** [getattr(self, related.get_accessor_name(), None)].  The accessor of a
    foreign key is a related manager of the class of the related model's
    default manager, filtered to the rows that point at [self] and bound to
    the prefetch cache of [self]; the accessor of a one-to-one field is the
    object that points at [self], and the default [None] when there is
    none. *)
Definition reverse_manager (self : Entity) (related : ForeignObjectRel) : Manager :=
  {| mgr_class := default_manager_class (meta (related_model related));
     mgr_model := related_model related;
     mgr_rel := [RefersTo (rel_field related) (pk self)];
     mgr_cache := prefetched related |}.

Definition getattr (self : Entity) (related : ForeignObjectRel) : M Attr :=
  fun w =>
    (match rel_kind related with
     | ManyToOneRel => AttrManager (reverse_manager self related)
     | OneToOneRel =>
         match rows (pointing_at related (pk self)) (db w) with
         | e :: _ => AttrObject e
         | [] => AttrNone
         end
     end, w).

(** The body of the loop of lines 67-75.  After the guard of line 71 the
    attribute is a manager. *)
Definition soft_delete_related (self : Entity) (related : ForeignObjectRel) : M unit :=
  if is_CASCADE (on_delete related) then
    related_manager <- getattr self related ;;
    if truthy related_manager && hasattr_all related_manager then
      match related_manager with
      | AttrManager m =>
          let related_queryset := all m in
          let related_model := qs_model related_queryset in
          if soft (meta related_model) then
            t <- now clock ;;
            update (all m) true (Some t) ;;; ret tt
          else ret tt
      | AttrObject _ => ret tt
      | AttrNone => ret tt
      end
    else ret tt
  else ret tt.

(** Lines 60-75.  The answer is [self] as the call leaves it. *)
Definition _soft_delete (self : Entity) : M Entity :=
  if is_deleted self then ret self
  else
    t <- now clock ;;
    let self := set_flags true (Some t) self in
    save self ;;;
    for_each (related_objects (meta (model self))) (soft_delete_related self) ;;;
    ret self.

Definition delete (self : Entity) : M Entity := _soft_delete self.

(** The body of the loop of lines 89-97.  The queryset of line 94 is used for
    its model only; the UPDATE of line 97 goes to [related_manager.all()]. *)
Definition restore_related (self : Entity) (related : ForeignObjectRel) : M unit :=
  if is_CASCADE (on_delete related) then
    related_manager <- getattr self related ;;
    if truthy related_manager && hasattr_deleted_only related_manager then
      match related_manager with
      | AttrManager m =>
          let related_queryset := deleted_only m in
          let related_model := qs_model related_queryset in
          if soft (meta related_model) then
            update (all m) false None ;;; ret tt
          else ret tt
      | AttrObject _ => ret tt
      | AttrNone => ret tt
      end
    else ret tt
  else ret tt.

(** Lines 81-97. *)
Definition restore (self : Entity) : M Entity :=
  if negb (is_deleted self) then ret self
  else
    let self := set_flags false None self in
    save self ;;;
    for_each (related_objects (meta (model self))) (restore_related self) ;;;
    ret self.

(** Lines 99-101: [super().delete()]. *)
Definition hard_delete (self : Entity) : World -> option (nat * World) :=
  Model_delete meta self.

End Model.

End SoftDeleteModel.

(** ** Vocabulary of the statements *)

(** The invariant of the two flags. *)
Definition flags_agree (e : Entity) : Prop :=
  is_deleted e = false <-> deleted_at e = None.

Definition flags_agreeb (e : Entity) : bool :=
  Bool.eqb (negb (is_deleted e))
           match deleted_at e with None => true | Some _ => false end.

(** [e] is a record that [self] reaches through one relation that cascades
    to a collection of a soft-delete model. *)
Definition cascades_to (meta : ModelName -> Options) (self e : Entity) : Prop :=
  exists related,
    In related (related_objects (meta (model self)))
    /\ on_delete related = CASCADE
    /\ rel_kind related = ManyToOneRel
    /\ soft (meta (related_model related)) = true
    /\ selects (pointing_at related (pk self)) e = true.


(** Two rows that differ in the two flags at most. *)
Definition same_but_flags (e e' : Entity) : Prop :=
  model e' = model e /\ pk e' = pk e /\ refs e' = refs e.

Definition to_many (k : RelKind) : bool :=
  match k with ManyToOneRel => true | OneToOneRel => false end.

(** The guards of lines 68, 71 and 74 taken together. *)
Definition cascadesb (meta : ModelName -> Options) (related : ForeignObjectRel) : bool :=
  is_CASCADE (on_delete related) && to_many (rel_kind related)
  && soft (meta (related_model related)).

(** A row before and after the delete cascade of [self], with the readings
    of the clock from [a] up to [b]: the row is untouched, or [self] cascades
    to it and it carries one of these readings. *)
Definition flagged (clock : nat -> Timestamp) (meta : ModelName -> Options)
           (self : Entity) (a b : nat) (e e' : Entity) : Prop :=
  e' = e
  \/ (cascades_to meta self e
      /\ exists n, a <= n < b /\ e' = set_flags true (Some (clock n)) e).

(** A row before and after the restore cascade of an instance without
    prefetch cache: untouched, or an active row whose flags were cleared
    once more. *)
Definition cleared (e e' : Entity) : Prop :=
  e' = e \/ (is_deleted e = false /\ e' = set_flags false None e).

(** A row before and after the restore cascade of an instance with any
    prefetch cache: untouched, or with its flags cleared. *)
Definition rewound (e e' : Entity) : Prop :=
  e' = e \/ e' = set_flags false None e.

(** The world after lines 64-66, before the loop. *)
Definition saved_deleted (clock : nat -> Timestamp) (self : Entity) (w : World) : World :=
  snd (save (set_flags true (Some (clock (reads w))) self) (snd (now clock w))).

(** The world after lines 85-87, before the loop. *)
Definition saved_restored (self : Entity) (w : World) : World :=
  snd (save (set_flags false None self) w).

Definition mentions_flag (l : Lookup) : bool :=
  match l with
  | IsDeleted _ => true
  | RefersTo _ _ => false
  end.

(** A queryset none of whose lookups reads [is_deleted]. *)
Definition flag_free (qs : QuerySet) : bool :=
  forallb (fun l => negb (mentions_flag l)) (qs_where qs).

(** A physical delete of a queryset that removes the rows it selects and
    nothing else: Django's [QuerySet.delete] when nothing points at them. *)
Definition delete_rows (qs : QuerySet) : M nat :=
  fun w =>
    (List.length (rows qs (db w)),
     {| db := List.filter (fun e => negb (selects qs e)) (db w);
        reads := reads w;
        writes := writes w
                  ++ map (fun e => PhysicalDelete (model e) (pk e)) (rows qs (db w)) |}).

(** ** A small schema and database

    An author has books and reviews (foreign keys), a profile (one-to-one)
    and drafts (a foreign key that does not cascade); a book has chapters.
    [Book] takes its managers from [SoftDeleteModel], whose first manager is
    Django's (line 54); [Review] declares [SoftDeleteManager] as its own
    first manager; [Invoice] is not a soft-delete model. *)
Module Library.

Definition meta (m : ModelName) : Options :=
  if String.eqb m "Author" then
    {| related_objects :=
         [ mkRel CASCADE ManyToOneRel "Book" "author";
           mkRel CASCADE ManyToOneRel "Review" "author";
           mkRel CASCADE OneToOneRel "Profile" "author";
           mkRel SET_NULL ManyToOneRel "Draft" "author";
           mkRel CASCADE ManyToOneRel "Invoice" "author" ];
       soft := true; default_manager_class := DjangoManager |}
  else if String.eqb m "Book" then
    {| related_objects := [ mkRel CASCADE ManyToOneRel "Chapter" "book" ];
       soft := true; default_manager_class := DjangoManager |}
  else if String.eqb m "Review" then
    {| related_objects := []; soft := true;
       default_manager_class := SoftDeleteManagerClass |}
  else if String.eqb m "Invoice" then
    {| related_objects := []; soft := false;
       default_manager_class := DjangoManager |}
  else
    {| related_objects := []; soft := true;
       default_manager_class := DjangoManager |}.

(** A clock that starts at 100 and advances by 10 at each reading. *)
Definition clock (n : nat) : Timestamp := (100 + 10 * Z.of_nat n)%Z.

Definition author1 : Entity := new_entity "Author" 1 [].

Definition rows0 : list Entity :=
  [ author1;
    new_entity "Author" 2 [];
    new_entity "Book" 1 [("author", 1)];
    mkEntity "Book" 2 [("author", 1)] true (Some 5%Z);
    new_entity "Book" 3 [("author", 2)];
    new_entity "Chapter" 1 [("book", 1)];
    new_entity "Review" 1 [("author", 1)];
    mkEntity "Review" 2 [("author", 1)] true (Some 7%Z);
    new_entity "Profile" 1 [("author", 1)];
    new_entity "Draft" 1 [("author", 1)];
    new_entity "Invoice" 1 [("author", 1)] ].

Definition w0 : World := {| db := rows0; reads := 0; writes := [] |}.

(** An instance loaded without [prefetch_related]. *)
Definition no_cache : PrefetchCache := fun _ => None.

(** An author loaded with
    [Prefetch("book_set", queryset=Book.objects.get_queryset())] and
    [Prefetch("review_set", queryset=Review.objects.get_all())]. *)
Definition prefetched : PrefetchCache :=
  fun related =>
    if String.eqb (related_model related) "Book" then Some [IsDeleted false]
    else if String.eqb (related_model related) "Review" then Some []
    else None.

(** The author and what goes with it, physically deleted. *)
Definition hard_deleted : nat * World :=
  Eval vm_compute in
    match Model_delete meta author1 w0 with
    | Some r => r
    | None => (0, w0)
    end.

End Library.

(** * Facts *)

(** ** Lists *)

Lemma Forall2_same {A} (P : A -> A -> Prop) (l : list A) :
  (forall x, P x x) -> Forall2 P l l.
Proof. intros HP; induction l; constructor; auto. Qed.

Lemma Forall2_chain {A} (P Q R : A -> A -> Prop) (l1 l2 l3 : list A) :
  (forall x y z, P x y -> Q y z -> R x z) ->
  Forall2 P l1 l2 -> Forall2 Q l2 l3 -> Forall2 R l1 l3.
Proof.
  intros HR H12; revert l3.
  induction H12; intros l3 H23; inversion H23; subst; constructor; eauto.
Qed.

Lemma Forall2_map_r {A} (P : A -> A -> Prop) (f : A -> A) (l : list A) :
  (forall x, In x l -> P x (f x)) -> Forall2 P l (map f l).
Proof.
  induction l as [|a l IH]; intros HP; simpl; constructor.
  - apply HP; left; reflexivity.
  - apply IH; intros x Hx; apply HP; right; exact Hx.
Qed.

Lemma Forall2_pick_r {A} (P : A -> A -> Prop) (l l' : list A) (y : A) :
  Forall2 P l l' -> In y l' -> exists x, In x l /\ P x y.
Proof.
  induction 1 as [|a b l l' Hab _ IH]; simpl; intros Hy; [contradiction|].
  destruct Hy as [<-|Hy].
  - exists a; auto.
  - destruct (IH Hy) as (x & Hx & Hxy); exists x; auto.
Qed.

Lemma Forall2_pick_l {A} (P : A -> A -> Prop) (l l' : list A) (x : A) :
  Forall2 P l l' -> In x l -> exists y, In y l' /\ P x y.
Proof.
  induction 1 as [|a b l l' Hab _ IH]; simpl; intros Hx; [contradiction|].
  destruct Hx as [<-|Hx].
  - exists b; auto.
  - destruct (IH Hx) as (y & Hy & Hxy); exists y; auto.
Qed.

Lemma Forall2_at {A} (P : A -> A -> Prop) (l l' : list A) (i : nat) (x : A) :
  Forall2 P l l' -> nth_error l i = Some x ->
  exists y, nth_error l' i = Some y /\ P x y.
Proof.
  intros H; revert i; induction H as [|a b l l' Hab _ IH]; intros [|i] Hi;
    simpl in *; try discriminate.
  - injection Hi as <-; exists b; auto.
  - apply IH; exact Hi.
Qed.

Lemma existsb_none {A} (f : A -> bool) (l : list A) :
  (forall x, In x l -> f x = false) -> existsb f l = false.
Proof.
  intros Hf; destruct (existsb f l) eqn:Hex; [|reflexivity].
  apply existsb_exists in Hex; destruct Hex as (x & Hx & Hfx).
  rewrite (Hf x Hx) in Hfx; discriminate.
Qed.

Lemma filter_none {A} (f : A -> bool) (l : list A) :
  (forall x, In x l -> f x = false) -> filter f l = [].
Proof.
  induction l as [|a l IH]; intros Hf; simpl; [reflexivity|].
  rewrite (Hf a (or_introl eq_refl)); apply IH.
  intros x Hx; apply Hf; right; exact Hx.
Qed.

Lemma Forall_along {A} (P : A -> Prop) (R : A -> A -> Prop) (l l' : list A) :
  (forall x y, P x -> R x y -> P y) ->
  Forall P l -> Forall2 R l l' -> Forall P l'.
Proof.
  intros HPR HP H; induction H; constructor; inversion HP; subst; eauto.
Qed.

(** ** The monad and the loop *)

Lemma bind_run {A B} (c : M A) (k : A -> M B) (w : World) :
  bind c k w = k (fst (c w)) (snd (c w)).
Proof. unfold bind; destruct (c w); reflexivity. Qed.

Lemma for_each_cons {A} (a : A) (l : list A) (body : A -> M unit) (w : World) :
  snd (for_each (a :: l) body w) = snd (for_each l body (snd (body a w))).
Proof. simpl; rewrite bind_run; reflexivity. Qed.

(** A property that every round of the loop keeps holds after the loop. *)
Lemma for_each_keeps {A} (I : World -> Prop) (l : list A) (body : A -> M unit) :
  (forall a w, In a l -> I w -> I (snd (body a w))) ->
  forall w, I w -> I (snd (for_each l body w)).
Proof.
  induction l as [|a l IH]; intros Hstep w Hw; [exact Hw|].
  rewrite for_each_cons; apply IH.
  - intros b w' Hb; apply Hstep; right; exact Hb.
  - apply Hstep; [left; reflexivity | exact Hw].
Qed.

(** A property that the round of [a] establishes and every round keeps
    holds after the loop, under an invariant [I] of the loop. *)
Lemma for_each_reaches {A} (I Q : World -> Prop) (l : list A)
      (body : A -> M unit) (a : A) :
  In a l ->
  (forall b w, In b l -> I w -> I (snd (body b w))) ->
  (forall w, I w -> Q (snd (body a w))) ->
  (forall b w, In b l -> I w -> Q w -> Q (snd (body b w))) ->
  forall w, I w -> Q (snd (for_each l body w)).
Proof.
  induction l as [|x l IH]; intros Ha HI Hest Hkeep w Hw; [contradiction|].
  rewrite for_each_cons.
  destruct Ha as [->|Ha].
  - assert (HIQ : I (snd (body a w)) /\ Q (snd (body a w))).
    { split; [apply HI; [left; reflexivity | exact Hw] | apply Hest; exact Hw]. }
    revert HIQ; generalize (snd (body a w)); intros w1 HIQ.
    apply (for_each_keeps (fun w => I w /\ Q w)); [|exact HIQ].
    intros b w' Hb [HIw HQw]; split.
    + apply HI; [right; exact Hb | exact HIw].
    + apply Hkeep; [right; exact Hb | exact HIw | exact HQw].
  - apply IH; auto.
    + intros b w' Hb; apply HI; right; exact Hb.
    + intros b w' Hb; apply Hkeep; right; exact Hb.
    + apply HI; [left; reflexivity | exact Hw].
Qed.

(** ** Rows, [save] and [update] *)

Lemma same_key_true (a b : Entity) :
  same_key a b = true <-> model a = model b /\ pk a = pk b.
Proof.
  unfold same_key; rewrite andb_true_iff, String.eqb_eq, Nat.eqb_eq; tauto.
Qed.

Lemma same_key_along (s e e' : Entity) :
  model e' = model e -> pk e' = pk e -> same_key s e' = same_key s e.
Proof. unfold same_key; intros -> ->; reflexivity. Qed.

Lemma set_flags_clean (e : Entity) :
  is_deleted e = false -> deleted_at e = None -> set_flags false None e = e.
Proof. destruct e; simpl; intros -> ->; reflexivity. Qed.

Lemma flags_agreeb_spec (e : Entity) : flags_agreeb e = true <-> flags_agree e.
Proof.
  unfold flags_agreeb, flags_agree.
  destruct (is_deleted e), (deleted_at e); simpl; intuition congruence.
Qed.

Lemma flags_agree_set (e : Entity) (t : Timestamp) :
  flags_agree (set_flags true (Some t) e).
Proof. unfold flags_agree; simpl; split; discriminate. Qed.

Lemma flags_agree_clear (e : Entity) : flags_agree (set_flags false None e).
Proof. unfold flags_agree; simpl; split; reflexivity. Qed.

(** The filter of a reverse accessor looks at the model and at the foreign
    keys, never at the flags. *)
Lemma selects_pointing_at_along (related : ForeignObjectRel) (k : nat) (e e' : Entity) :
  model e' = model e -> refs e' = refs e ->
  selects (pointing_at related k) e' = selects (pointing_at related k) e.
Proof. unfold selects; simpl; intros -> ->; reflexivity. Qed.

Lemma save_at (self : Entity) (w : World) (i : nat) (e : Entity) :
  nth_error (db w) i = Some e ->
  nth_error (db (snd (save self w))) i = Some (if same_key self e then self else e).
Proof.
  intros Hi; simpl.
  destruct (existsb (same_key self) (db w)) eqn:Hex.
  - rewrite nth_error_map, Hi; reflexivity.
  - rewrite nth_error_app1 by (apply nth_error_Some; congruence).
    assert (Hno : same_key self e = false).
    { destruct (same_key self e) eqn:Hk; [|reflexivity].
      assert (existsb (same_key self) (db w) = true); [|congruence].
      apply existsb_exists; exists e; split; [eapply nth_error_In; eauto|exact Hk]. }
    rewrite Hno; exact Hi.
Qed.

Lemma save_stores (self : Entity) (w : World) : In self (db (snd (save self w))).
Proof.
  simpl; destruct (existsb (same_key self) (db w)) eqn:Hex.
  - apply existsb_exists in Hex; destruct Hex as (x & Hx & Hk).
    apply in_map_iff; exists x; rewrite Hk; auto.
  - apply in_or_app; right; left; reflexivity.
Qed.

Lemma save_under_key (self : Entity) (w : World) (e : Entity) :
  In e (db (snd (save self w))) -> same_key self e = true -> e = self.
Proof.
  simpl; destruct (existsb (same_key self) (db w)) eqn:Hex; intros He Hk.
  - apply in_map_iff in He; destruct He as (x & Hx & _).
    destruct (same_key self x) eqn:Hkx; congruence.
  - apply in_app_or in He; destruct He as [He|[He|[]]]; [|congruence].
    assert (existsb (same_key self) (db w) = true); [|congruence].
    apply existsb_exists; exists e; auto.
Qed.

Lemma save_elsewhere (self : Entity) (w : World) (e : Entity) :
  In e (db (snd (save self w))) -> e = self \/ In e (db w).
Proof.
  simpl; destruct (existsb (same_key self) (db w)); intros He.
  - apply in_map_iff in He; destruct He as (x & Hx & Hin).
    destruct (same_key self x); subst; auto.
  - apply in_app_or in He; destruct He as [He|[He|[]]]; auto.
Qed.

Lemma save_keeps_agreement (self : Entity) (w : World) :
  flags_agree self -> Forall flags_agree (db w) ->
  Forall flags_agree (db (snd (save self w))).
Proof.
  intros Hs Hdb; apply Forall_forall; intros e He.
  destruct (save_elsewhere _ _ _ He) as [->|Hin]; [exact Hs|].
  rewrite Forall_forall in Hdb; auto.
Qed.

(** [update] moves every row it selects to the new flags and leaves the
    others in place. *)
Lemma update_rows (qs : QuerySet) (flag : bool) (stamp : option Timestamp) (w : World) :
  Forall2 (fun e e' => (selects qs e = true /\ e' = set_flags flag stamp e)
                       \/ (selects qs e = false /\ e' = e))
          (db w) (db (snd (update qs flag stamp w))).
Proof.
  simpl; apply Forall2_map_r; intros e _.
  destruct (selects qs e); auto.
Qed.

(** ** Managers *)

Lemma selects_active (m : ModelName) (e : Entity) :
  selects (SoftDeleteManager.get_queryset m) e
  = String.eqb (model e) m && negb (is_deleted e).
Proof.
  unfold selects; simpl; destruct (is_deleted e); simpl;
    rewrite ?andb_true_r, ?andb_false_r; reflexivity.
Qed.

Lemma selects_deleted (m : ModelName) (e : Entity) :
  selects (SoftDeleteManager.deleted_only m) e
  = String.eqb (model e) m && is_deleted e.
Proof.
  unfold selects; simpl; destruct (is_deleted e); simpl;
    rewrite ?andb_true_r, ?andb_false_r; reflexivity.
Qed.

Lemma selects_everything (m : ModelName) (e : Entity) :
  selects (SoftDeleteManager.get_all m) e = String.eqb (model e) m.
Proof. unfold selects; simpl; apply andb_true_r. Qed.

Section Accessors.
Variable meta : ModelName -> Options.
Variable cache : PrefetchCache.

(** What [related_manager.all()] selects: the rows that point at [self],
    and of these the rows of the prefetched queryset when the instance has a
    prefetch cache for the accessor; without one, all of them under
    Django's manager and the active ones under a [SoftDeleteManager]. *)
Lemma selects_all (self : Entity) (related : ForeignObjectRel) (e : Entity) :
  selects (all (SoftDeleteModel.reverse_manager meta cache self related)) e
  = match cache related with
    | Some prefetched =>
        forallb (fun l => holds l e) prefetched
        && selects (pointing_at related (pk self)) e
    | None =>
        match default_manager_class (meta (related_model related)) with
        | DjangoManager => selects (pointing_at related (pk self)) e
        | SoftDeleteManagerClass =>
            negb (is_deleted e) && selects (pointing_at related (pk self)) e
        end
    end.
Proof.
  unfold all, get_queryset, SoftDeleteModel.reverse_manager, selects; simpl.
  destruct (cache related) as [prefetched|]; simpl.
  - rewrite forallb_app; simpl.
    destruct (String.eqb (model e) (related_model related)),
      (forallb (fun l => holds l e) prefetched); simpl; reflexivity.
  - destruct (default_manager_class (meta (related_model related))); simpl.
    + reflexivity.
    + destruct (String.eqb (model e) (related_model related)), (is_deleted e);
        simpl; reflexivity.
Qed.

(** With or without a cache, [all()] answers rows that point at [self]. *)
Lemma selects_all_points (self : Entity) (related : ForeignObjectRel) (e : Entity) :
  selects (all (SoftDeleteModel.reverse_manager meta cache self related)) e = true ->
  selects (pointing_at related (pk self)) e = true.
Proof.
  rewrite selects_all.
  destruct (cache related) as [prefetched|].
  - rewrite andb_true_iff; tauto.
  - destruct (default_manager_class (meta (related_model related))); [auto|].
    rewrite andb_true_iff; tauto.
Qed.

End Accessors.

(** ** The two cascades *)

Lemma is_CASCADE_true (p : OnDelete) : is_CASCADE p = true <-> p = CASCADE.
Proof. destruct p; simpl; split; congruence. Qed.

Lemma to_many_true (k : RelKind) : to_many k = true <-> k = ManyToOneRel.
Proof. destruct k; simpl; split; congruence. Qed.

Lemma cascadesb_true (meta : ModelName -> Options) (related : ForeignObjectRel) :
  cascadesb meta related = true <->
  on_delete related = CASCADE /\ rel_kind related = ManyToOneRel
  /\ soft (meta (related_model related)) = true.
Proof.
  unfold cascadesb; rewrite !andb_true_iff, is_CASCADE_true, to_many_true; tauto.
Qed.

Section Cascade.
Variable clock : nat -> Timestamp.
Variable meta : ModelName -> Options.
Variable cache : PrefetchCache.

Local Abbreviation soft_delete_related := (SoftDeleteModel.soft_delete_related clock meta cache).
Local Abbreviation restore_related := (SoftDeleteModel.restore_related meta cache).
Local Abbreviation reverse_manager := (SoftDeleteModel.reverse_manager meta cache).

Lemma qs_model_all (self : Entity) (related : ForeignObjectRel) :
  qs_model (all (reverse_manager self related)) = related_model related.
Proof.
  unfold all, get_queryset, SoftDeleteModel.reverse_manager; simpl.
  destruct (cache related); [reflexivity|].
  destruct (default_manager_class (meta (related_model related))); reflexivity.
Qed.

(** One round of the loop of lines 67-75: one reading of the clock and one
    UPDATE when the three guards pass, nothing otherwise. *)
Lemma soft_delete_related_run (self : Entity) (related : ForeignObjectRel) (w : World) :
  soft_delete_related self related w
  = (tt, if cascadesb meta related
         then snd (update (all (reverse_manager self related)) true
                          (Some (clock (reads w))) (snd (now clock w)))
         else w).
Proof.
  unfold SoftDeleteModel.soft_delete_related, cascadesb.
  destruct (is_CASCADE (on_delete related)); simpl; [|reflexivity].
  rewrite bind_run; unfold SoftDeleteModel.getattr; simpl.
  destruct (rel_kind related); simpl.
  - change (qs_model _) with (qs_model (all (reverse_manager self related))).
    rewrite qs_model_all.
    destruct (soft (meta (related_model related))); [|reflexivity].
    rewrite !bind_run; reflexivity.
  - destruct (rows _ _); reflexivity.
Qed.

(** One round of the loop of lines 89-97. *)
Lemma restore_related_run (self : Entity) (related : ForeignObjectRel) (w : World) :
  restore_related self related w
  = (tt, if cascadesb meta related
            && defines_deleted_only
                 (default_manager_class (meta (related_model related)))
         then snd (update (all (reverse_manager self related)) false None w)
         else w).
Proof.
  unfold SoftDeleteModel.restore_related, cascadesb.
  destruct (is_CASCADE (on_delete related)); simpl; [|reflexivity].
  rewrite bind_run; unfold SoftDeleteModel.getattr; simpl.
  destruct (rel_kind related); simpl.
  - destruct (defines_deleted_only
                (default_manager_class (meta (related_model related))));
      [|rewrite andb_false_r; reflexivity].
    destruct (soft (meta (related_model related))); [|reflexivity].
    rewrite !bind_run; reflexivity.
  - destruct (rows _ _); reflexivity.
Qed.

(** What a round of the delete cascade does to the rows: a row of the new
    database is a row of the old one, or a row that [all()] selected, flagged
    with the reading of the clock taken in this round. *)
Lemma soft_delete_related_step (self : Entity) (b : ForeignObjectRel) (w : World) (e' : Entity) :
  In e' (db (snd (soft_delete_related self b w))) ->
  (In e' (db w)
   /\ (cascadesb meta b = true -> selects (all (reverse_manager self b)) e' = false))
  \/ (cascadesb meta b = true
      /\ exists e, In e (db w)
           /\ selects (all (reverse_manager self b)) e = true
           /\ e' = set_flags true (Some (clock (reads w))) e).
Proof.
  rewrite soft_delete_related_run; simpl.
  destruct (cascadesb meta b) eqn:Hb; simpl; intros He'.
  - apply in_map_iff in He'; destruct He' as (e & He & Hin).
    destruct (selects (all (reverse_manager self b)) e) eqn:Hsel; subst e'.
    + right; split; [reflexivity|]; exists e; auto.
    + left; auto.
  - left; split; [exact He'|discriminate].
Qed.

Lemma soft_delete_related_reads (self : Entity) (b : ForeignObjectRel) (w : World) :
  reads (snd (soft_delete_related self b w))
  = if cascadesb meta b then S (reads w) else reads w.
Proof.
  rewrite soft_delete_related_run; simpl; destruct (cascadesb meta b); reflexivity.
Qed.

Lemma flagged_chain (self : Entity) (a b c : nat) (e e' e'' : Entity) :
  a <= b -> b <= c ->
  flagged clock meta self a b e e' -> flagged clock meta self b c e' e'' -> flagged clock meta self a c e e''.
Proof.
  intros Hab Hbc [->|(Hc & n & Hn & ->)] [->|(Hc' & n' & Hn' & ->)].
  - left; reflexivity.
  - right; split; [exact Hc'|]; exists n'; split; [lia|reflexivity].
  - right; split; [exact Hc|]; exists n; split; [lia|reflexivity].
  - right; split; [exact Hc|]; exists n'; split; [lia|reflexivity].
Qed.

Lemma flagged_shape (self : Entity) (a b : nat) (e e' : Entity) :
  flagged clock meta self a b e e' -> same_but_flags e e'.
Proof. intros [->|(_ & n & _ & ->)]; repeat split. Qed.

Lemma flagged_monotone (self : Entity) (a b : nat) (e e' : Entity) :
  flagged clock meta self a b e e' -> is_deleted e = true -> is_deleted e' = true.
Proof. intros [->|(_ & n & _ & ->)]; auto. Qed.

Lemma flagged_agree (self : Entity) (a b : nat) (e e' : Entity) :
  flags_agree e -> flagged clock meta self a b e e' -> flags_agree e'.
Proof. intros He [->|(_ & n & _ & ->)]; [exact He|apply flags_agree_set]. Qed.

Lemma soft_delete_related_rows (self : Entity) (related : ForeignObjectRel) (w : World) :
  In related (related_objects (meta (model self))) ->
  reads w <= reads (snd (soft_delete_related self related w))
  /\ Forall2 (flagged clock meta self (reads w) (reads (snd (soft_delete_related self related w))))
             (db w) (db (snd (soft_delete_related self related w))).
Proof.
  intros Hin; rewrite soft_delete_related_run; simpl.
  destruct (cascadesb meta related) eqn:Hb; simpl.
  - split; [lia|].
    apply Forall2_map_r; intros e _.
    destruct (selects (all (reverse_manager self related)) e) eqn:Hsel;
      [|left; reflexivity].
    right; split.
    + apply cascadesb_true in Hb; destruct Hb as (H1 & H2 & H3).
      exists related; repeat split; auto.
      eapply selects_all_points; eauto.
    + exists (reads w); split; [lia|reflexivity].
  - split; [lia|]; apply Forall2_same; intros; left; reflexivity.
Qed.

(** The whole loop of lines 67-75. *)
Lemma soft_delete_loop_rows (self : Entity) (l : list ForeignObjectRel) (w : World) :
  incl l (related_objects (meta (model self))) ->
  reads w <= reads (snd (for_each l (soft_delete_related self) w))
  /\ Forall2 (flagged clock meta self (reads w) (reads (snd (for_each l (soft_delete_related self) w))))
             (db w) (db (snd (for_each l (soft_delete_related self) w))).
Proof.
  intros Hl.
  apply (for_each_keeps
           (fun w' => reads w <= reads w'
                      /\ Forall2 (flagged clock meta self (reads w) (reads w')) (db w) (db w'))).
  - intros b w' Hb [Hr HF].
    destruct (soft_delete_related_rows self b w' (Hl _ Hb)) as [Hr' HF'].
    split; [lia|].
    eapply Forall2_chain; [|exact HF|exact HF'].
    intros x y z Hxy Hyz; eapply flagged_chain; [| |exact Hxy|exact Hyz]; lia.
  - split; [lia|]; apply Forall2_same; intros; left; reflexivity.
Qed.


(** With Django's manager behind the accessor and no prefetch cache for
    it, every record that points at [self] carries, after the loop, a
    reading of the clock taken in the loop. *)
Lemma soft_delete_loop_stamps (self : Entity) (l : list ForeignObjectRel)
      (related : ForeignObjectRel) (w : World) (e' : Entity) :
  In related l -> cascadesb meta related = true ->
  cache related = None ->
  default_manager_class (meta (related_model related)) = DjangoManager ->
  In e' (db (snd (for_each l (soft_delete_related self) w))) ->
  selects (pointing_at related (pk self)) e' = true ->
  is_deleted e' = true
  /\ exists n, reads w <= n < reads (snd (for_each l (soft_delete_related self) w))
               /\ deleted_at e' = Some (clock n).
Proof.
  intros Hin Hb Hnocache Hcls; revert e'.
  apply (for_each_reaches (fun w' => reads w <= reads w')
           (fun w' => forall e', In e' (db w') ->
                        selects (pointing_at related (pk self)) e' = true ->
                        is_deleted e' = true
                        /\ exists n, reads w <= n < reads w'
                                     /\ deleted_at e' = Some (clock n))
           l (soft_delete_related self) related); auto.
  - intros b w0 _ Hr; rewrite soft_delete_related_reads.
    destruct (cascadesb meta b); lia.
  - intros w0 Hr e' He' Hsel; rewrite soft_delete_related_reads, Hb.
    destruct (soft_delete_related_step _ _ _ _ He') as [[_ Hno]|(_ & e & _ & _ & ->)].
    + specialize (Hno Hb); rewrite selects_all, Hnocache, Hcls in Hno; congruence.
    + split; [reflexivity|]; exists (reads w0); split; [lia|reflexivity].
  - intros b w0 _ Hr HQ e' He' Hsel; rewrite soft_delete_related_reads.
    destruct (soft_delete_related_step _ _ _ _ He') as [[Hold _]|(Hcb & e & _ & _ & ->)].
    + destruct (HQ e' Hold Hsel) as (Hd & n & Hn & Hat).
      split; [exact Hd|]; exists n; split; [|exact Hat].
      destruct (cascadesb meta b); lia.
    + rewrite Hcb; split; [reflexivity|].
      exists (reads w0); split; [lia|reflexivity].
Qed.

Lemma cleared_chain (e e' e'' : Entity) :
  cleared e e' -> cleared e' e'' -> cleared e e''.
Proof.
  intros [->|(Ha & ->)] [->|(Ha' & ->)]; unfold cleared; auto.
Qed.

Lemma rewound_chain (e e' e'' : Entity) :
  rewound e e' -> rewound e' e'' -> rewound e e''.
Proof.
  intros [->| ->] [->| ->]; unfold rewound; auto.
Qed.

(** A round of the restore cascade clears the flags of the rows it selects,
    whichever they are. *)
Lemma restore_related_rows (self : Entity) (related : ForeignObjectRel) (w : World) :
  reads (snd (restore_related self related w)) = reads w
  /\ Forall2 rewound (db w) (db (snd (restore_related self related w))).
Proof.
  rewrite restore_related_run; simpl.
  destruct (cascadesb meta related
            && defines_deleted_only
                 (default_manager_class (meta (related_model related))));
    simpl.
  - split; [reflexivity|].
    apply Forall2_map_r; intros e _.
    destruct (selects (all (reverse_manager self related)) e);
      [right|left]; reflexivity.
  - split; [reflexivity|]; apply Forall2_same; intros; left; reflexivity.
Qed.

(** Without a prefetch cache the rows it selects are active: the manager
    has [deleted_only], so it is a [SoftDeleteManager]. *)
Lemma restore_related_rows_uncached (self : Entity) (related : ForeignObjectRel)
      (w : World) :
  cache related = None ->
  Forall2 cleared (db w) (db (snd (restore_related self related w))).
Proof.
  intros Hnocache; rewrite restore_related_run; simpl.
  destruct (cascadesb meta related
            && defines_deleted_only
                 (default_manager_class (meta (related_model related))))
    eqn:Hb; simpl.
  - apply Forall2_map_r; intros e _.
    destruct (selects (all (reverse_manager self related)) e) eqn:Hsel;
      [|left; reflexivity].
    right; split; [|reflexivity].
    apply andb_true_iff in Hb; destruct Hb as [_ Hattr].
    rewrite selects_all, Hnocache in Hsel.
    destruct (default_manager_class (meta (related_model related)));
      [discriminate|].
    apply andb_true_iff in Hsel; destruct Hsel as [Hact _].
    destruct (is_deleted e); [discriminate|reflexivity].
  - apply Forall2_same; intros; left; reflexivity.
Qed.

(** The whole loop of lines 89-97. *)
Lemma restore_loop_rows (self : Entity) (l : list ForeignObjectRel) (w : World) :
  reads (snd (for_each l (restore_related self) w)) = reads w
  /\ Forall2 rewound (db w) (db (snd (for_each l (restore_related self) w))).
Proof.
  apply (for_each_keeps
           (fun w' => reads w' = reads w /\ Forall2 rewound (db w) (db w'))).
  - intros b w' _ [Hr HF].
    destruct (restore_related_rows self b w') as [Hr' HF'].
    split; [congruence|].
    eapply Forall2_chain; [|exact HF|exact HF'].
    intros x y z; apply rewound_chain.
  - split; [reflexivity|]; apply Forall2_same; intros; left; reflexivity.
Qed.

Lemma restore_loop_rows_uncached (self : Entity) (l : list ForeignObjectRel) (w : World) :
  (forall related, In related l -> cache related = None) ->
  Forall2 cleared (db w) (db (snd (for_each l (restore_related self) w))).
Proof.
  intros Hnocache.
  apply (for_each_keeps (fun w' => Forall2 cleared (db w) (db w'))).
  - intros b w' Hb HF.
    eapply Forall2_chain;
      [|exact HF|exact (restore_related_rows_uncached self b w' (Hnocache b Hb))].
    intros x y z; apply cleared_chain.
  - apply Forall2_same; intros; left; reflexivity.
Qed.

(** A row that no round selects stays in place through the loop. *)
Lemma restore_loop_spares (self : Entity) (l : list ForeignObjectRel)
      (w : World) (i : nat) (e : Entity) :
  (forall related, In related l ->
     cascadesb meta related
     && defines_deleted_only (default_manager_class (meta (related_model related)))
     = true ->
     selects (all (reverse_manager self related)) e = false) ->
  nth_error (db w) i = Some e ->
  nth_error (db (snd (for_each l (restore_related self) w))) i = Some e.
Proof.
  intros Hno Hi.
  apply (for_each_keeps (fun w' => nth_error (db w') i = Some e)); [|exact Hi].
  intros b w' Hb Hi'; rewrite restore_related_run; simpl.
  destruct (cascadesb meta b
            && defines_deleted_only (default_manager_class (meta (related_model b))))
    eqn:Hguard; [|exact Hi'].
  simpl; rewrite nth_error_map, Hi'; simpl.
  rewrite (Hno b Hb Hguard); reflexivity.
Qed.

(** ** The two methods, unfolded *)

Lemma soft_delete_active (self : Entity) (w : World) :
  is_deleted self = false ->
  SoftDeleteModel.delete clock meta cache self w
  = (set_flags true (Some (clock (reads w))) self,
     snd (for_each (related_objects (meta (model self)))
            (soft_delete_related (set_flags true (Some (clock (reads w))) self))
            (snd (save (set_flags true (Some (clock (reads w))) self)
                       (snd (now clock w)))))).
Proof.
  intros Hact; unfold SoftDeleteModel.delete, SoftDeleteModel._soft_delete.
  rewrite Hact; cbv beta iota zeta; rewrite !bind_run; reflexivity.
Qed.

Lemma soft_delete_deleted (self : Entity) (w : World) :
  is_deleted self = true -> SoftDeleteModel.delete clock meta cache self w = (self, w).
Proof.
  intros Hdel; unfold SoftDeleteModel.delete, SoftDeleteModel._soft_delete.
  rewrite Hdel; reflexivity.
Qed.

Lemma restore_deleted (self : Entity) (w : World) :
  is_deleted self = true ->
  SoftDeleteModel.restore meta cache self w
  = (set_flags false None self,
     snd (for_each (related_objects (meta (model self)))
            (restore_related (set_flags false None self))
            (snd (save (set_flags false None self) w)))).
Proof.
  intros Hdel; unfold SoftDeleteModel.restore.
  rewrite Hdel; cbn [negb]; cbv beta iota zeta; rewrite !bind_run; reflexivity.
Qed.

Lemma restore_active (self : Entity) (w : World) :
  is_deleted self = false -> SoftDeleteModel.restore meta cache self w = (self, w).
Proof.
  intros Hact; unfold SoftDeleteModel.restore; rewrite Hact; reflexivity.
Qed.

End Cascade.

Lemma rewound_agree (e e' : Entity) : flags_agree e -> rewound e e' -> flags_agree e'.
Proof. intros He [->| ->]; [exact He|apply flags_agree_clear]. Qed.

Lemma rewound_clean (e e' : Entity) :
  is_deleted e = false -> deleted_at e = None -> rewound e e' -> e' = e.
Proof.
  intros Hf Hn [->| ->]; [reflexivity|apply set_flags_clean; assumption].
Qed.

Lemma rewound_shape (e e' : Entity) : rewound e e' -> same_but_flags e e'.
Proof. intros [->| ->]; repeat split. Qed.

Lemma update_keeps_agreement (qs : QuerySet) (flag : bool)
      (stamp : option Timestamp) (w : World) :
  flags_agree (set_flags flag stamp (new_entity "" 0 [])) ->
  Forall flags_agree (db w) ->
  Forall flags_agree (db (snd (update qs flag stamp w))).
Proof.
  intros Hnew Hdb.
  eapply Forall_along; [|exact Hdb|apply update_rows].
  intros x y Hx [[_ ->]|[_ ->]]; [|exact Hx].
  unfold flags_agree in *; simpl in *; exact Hnew.
Qed.

(** ** [delete()] on an active record, [restore()] on a deleted one *)

Section Methods.
Variable clock : nat -> Timestamp.
Variable meta : ModelName -> Options.
Variable cache : PrefetchCache.

Local Abbreviation soft_delete_related := (SoftDeleteModel.soft_delete_related clock meta cache).
Local Abbreviation delete := (SoftDeleteModel.delete clock meta cache).
Local Abbreviation restore := (SoftDeleteModel.restore meta cache).

Lemma delete_active_rows (self : Entity) (w : World) :
  is_deleted self = false ->
  reads w < reads (snd (delete self w))
  /\ Forall2 (flagged clock meta self (S (reads w)) (reads (snd (delete self w))))
             (db (saved_deleted clock self w)) (db (snd (delete self w))).
Proof.
  intros Hact; rewrite soft_delete_active by exact Hact; cbn [snd].
  destruct (soft_delete_loop_rows clock meta cache
              (set_flags true (Some (clock (reads w))) self) _
              (saved_deleted clock self w) (incl_refl _)) as [Hr HF].
  split; [exact Hr|exact HF].
Qed.

Lemma restore_deleted_rows (self : Entity) (w : World) :
  is_deleted self = true ->
  reads (snd (restore self w)) = reads w
  /\ Forall2 rewound (db (saved_restored self w)) (db (snd (restore self w))).
Proof.
  intros Hdel; rewrite restore_deleted by exact Hdel; cbn [snd].
  exact (restore_loop_rows meta cache (set_flags false None self) _ (saved_restored self w)).
Qed.

Lemma restore_deleted_rows_uncached (self : Entity) (w : World) :
  is_deleted self = true ->
  (forall related, In related (related_objects (meta (model self))) ->
                   cache related = None) ->
  Forall2 cleared (db (saved_restored self w)) (db (snd (restore self w))).
Proof.
  intros Hdel Hnocache; rewrite restore_deleted by exact Hdel; cbn [snd].
  exact (restore_loop_rows_uncached meta cache (set_flags false None self) _
           (saved_restored self w) Hnocache).
Qed.

(** Under the key of a record that [delete()] found active, the database
    holds a row, and only rows flagged deleted. *)
Lemma delete_active_key_present (self : Entity) (w : World) :
  is_deleted self = false ->
  exists e, In e (db (snd (delete self w))) /\ same_key self e = true.
Proof.
  intros Hact; destruct (delete_active_rows self w Hact) as [_ HF].
  destruct (Forall2_pick_l _ _ _ _ HF
              (save_stores (set_flags true (Some (clock (reads w))) self)
                           (snd (now clock w)))) as (y & Hy & Hsy).
  exists y; split; [exact Hy|].
  destruct (flagged_shape _ _ _ _ _ _ _ Hsy) as (Hm & Hp & _).
  rewrite (same_key_along self _ _ Hm Hp).
  apply same_key_true; split; reflexivity.
Qed.

Lemma delete_active_key_deleted (self : Entity) (w : World) (e : Entity) :
  is_deleted self = false ->
  In e (db (snd (delete self w))) -> same_key self e = true ->
  is_deleted e = true /\ deleted_at e <> None.
Proof.
  intros Hact He Hk; destruct (delete_active_rows self w Hact) as [_ HF].
  destruct (Forall2_pick_r _ _ _ e HF He) as (x & Hx & Hxe).
  destruct (flagged_shape _ _ _ _ _ _ _ Hxe) as (Hm & Hp & _).
  rewrite (same_key_along self _ _ Hm Hp) in Hk.
  rewrite (save_under_key (set_flags true (Some (clock (reads w))) self) _ x Hx Hk)
    in Hxe.
  destruct Hxe as [->|(_ & n & _ & ->)]; simpl; split; congruence.
Qed.


End Methods.

(** * The claims *)

(** C1.  The two flags agree: [is_deleted] is false exactly when
    [deleted_at] is null.  This holds of a new record, and each operation
    keeps it, on the instance it is called on and on every row of the
    database: the per-record [delete] and [restore] with the bulk updates of
    their cascades, and the [delete] and [restore] of a queryset. *)
Theorem flags_agree_invariant
        (clock : nat -> Timestamp) (meta : ModelName -> Options) (cache : PrefetchCache)
        (self : Entity) (qs : QuerySet) (w : World)
        (Hself : flags_agree self) (Hdb : Forall flags_agree (db w)) :
  (forall m k r, flags_agree (new_entity m k r))
  /\ (flags_agree (fst (SoftDeleteModel.delete clock meta cache self w))
      /\ Forall flags_agree (db (snd (SoftDeleteModel.delete clock meta cache self w))))
  /\ (flags_agree (fst (SoftDeleteModel.restore meta cache self w))
      /\ Forall flags_agree (db (snd (SoftDeleteModel.restore meta cache self w))))
  /\ Forall flags_agree (db (snd (SoftDeleteQuerySet.delete clock qs w)))
  /\ Forall flags_agree (db (snd (SoftDeleteQuerySet.restore qs w))).
Proof.
  split; [|split; [|split; [|split]]].
  - intros m k r; unfold flags_agree; simpl; tauto.
  - destruct (is_deleted self) eqn:Hflag.
    + rewrite soft_delete_deleted by exact Hflag; auto.
    + rewrite soft_delete_active by exact Hflag; cbn [fst snd].
      split; [apply flags_agree_set|].
      set (self' := set_flags true (Some (clock (reads w))) self).
      destruct (soft_delete_loop_rows clock meta cache self' _
                  (snd (save self' (snd (now clock w)))) (incl_refl _))
        as [_ HF].
      eapply Forall_along; [| |exact HF].
      * intros x y Hx Hxy; eapply flagged_agree; eauto.
      * apply save_keeps_agreement; [apply flags_agree_set|exact Hdb].
  - destruct (is_deleted self) eqn:Hflag.
    + rewrite restore_deleted by exact Hflag; cbn [fst snd].
      split; [apply flags_agree_clear|].
      set (self' := set_flags false None self).
      destruct (restore_loop_rows meta cache self' (related_objects (meta (model self)))
                  (snd (save self' w))) as [_ HF].
      eapply Forall_along; [| |exact HF].
      * intros x y; apply rewound_agree.
      * apply save_keeps_agreement; [apply flags_agree_clear|exact Hdb].
    + rewrite restore_active by exact Hflag; auto.
  - unfold SoftDeleteQuerySet.delete, SoftDeleteQuerySet._soft_delete.
    rewrite bind_run; apply update_keeps_agreement; [apply flags_agree_set|exact Hdb].
  - unfold SoftDeleteQuerySet.restore.
    apply update_keeps_agreement; [apply flags_agree_clear|exact Hdb].
Qed.

Lemma flags_agree_invariant_witness :
  Forall flags_agree (db (snd (SoftDeleteModel.delete Library.clock Library.meta Library.no_cache
                                 Library.author1 Library.w0)))
  /\ Forall flags_agree
       (db (snd (SoftDeleteQuerySet.delete Library.clock
                   (SoftDeleteManager.get_all "Book") Library.w0))).
Proof.
  assert (Hself : flags_agree Library.author1)
    by (apply flags_agreeb_spec; reflexivity).
  assert (Hdb : Forall flags_agree (db Library.w0)).
  { apply Forall_forall; intros e He; apply flags_agreeb_spec.
    revert e He; apply Forall_forall.
    repeat (constructor; [reflexivity|]); constructor. }
  destruct (@flags_agree_invariant Library.clock Library.meta Library.no_cache Library.author1
              (SoftDeleteManager.get_all "Book") Library.w0 Hself Hdb)
    as (_ & (_ & Hd) & _ & Hq & _).
  split; [exact Hd|exact Hq].
Defined.

(** C4.  The default entry point of a model, [objects.get_queryset()],
    answers exactly the rows of the model whose [is_deleted] is false;
    [get_all()] answers all the rows of the model and [deleted_only()]
    exactly those whose [is_deleted] is true.  After [delete()] on an active
    record, no row under its key is in the default enumeration, and the
    record is still found by the two other entry points. *)
Theorem default_lookup_excludes_deleted
        (clock : nat -> Timestamp) (meta : ModelName -> Options) (cache : PrefetchCache)
        (self : Entity) (w : World) (m : ModelName) (table : list Entity)
        (Hactive : is_deleted self = false) :
  (forall e, In e (rows (SoftDeleteManager.get_queryset m) table)
             <-> In e table /\ model e = m /\ is_deleted e = false)
  /\ (forall e, In e (rows (SoftDeleteManager.get_all m) table)
                <-> In e table /\ model e = m)
  /\ (forall e, In e (rows (SoftDeleteManager.deleted_only m) table)
                <-> In e table /\ model e = m /\ is_deleted e = true)
  /\ (forall e, In e (rows (SoftDeleteManager.get_queryset (model self))
                        (db (snd (SoftDeleteModel.delete clock meta cache self w)))) ->
                same_key self e = false)
  /\ (exists e, same_key self e = true
                /\ In e (rows (SoftDeleteManager.deleted_only (model self))
                           (db (snd (SoftDeleteModel.delete clock meta cache self w))))
                /\ In e (rows (SoftDeleteManager.get_all (model self))
                           (db (snd (SoftDeleteModel.delete clock meta cache self w))))).
Proof.
  assert (Hkey : forall e,
             In e (db (snd (SoftDeleteModel.delete clock meta cache self w))) ->
             same_key self e = true -> is_deleted e = true).
  { intros e He Hk.
    exact (proj1 (delete_active_key_deleted clock meta cache self w e Hactive He Hk)). }
  assert (Hthere : exists e,
             In e (db (snd (SoftDeleteModel.delete clock meta cache self w)))
             /\ same_key self e = true)
    by (apply delete_active_key_present; exact Hactive).
  split; [|split; [|split; [|split]]].
  - intros e; unfold rows; rewrite filter_In, selects_active, andb_true_iff,
      String.eqb_eq, negb_true_iff; tauto.
  - intros e; unfold rows; rewrite filter_In, selects_everything, String.eqb_eq;
      tauto.
  - intros e; unfold rows; rewrite filter_In, selects_deleted, andb_true_iff,
      String.eqb_eq; tauto.
  - intros e He; unfold rows in He; apply filter_In in He; destruct He as [He Hsel].
    rewrite selects_active, andb_true_iff, negb_true_iff in Hsel.
    destruct (same_key self e) eqn:Hk; [|reflexivity].
    rewrite (Hkey e He Hk) in Hsel; destruct Hsel; discriminate.
  - destruct Hthere as (e & He & Hk); exists e.
    assert (Hm : String.eqb (model e) (model self) = true).
    { apply same_key_true in Hk; destruct Hk as [Hm _].
      apply String.eqb_eq; congruence. }
    split; [exact Hk|]; split; unfold rows; apply filter_In; split; try exact He.
    + rewrite selects_deleted, Hm, (Hkey e He Hk); reflexivity.
    + rewrite selects_everything; exact Hm.
Qed.

Lemma default_lookup_excludes_deleted_witness :
  existsb (same_key Library.author1)
    (rows (SoftDeleteManager.get_queryset "Author")
       (db (snd (SoftDeleteModel.delete Library.clock Library.meta Library.no_cache
                   Library.author1 Library.w0)))) = false
  /\ exists e,
       same_key Library.author1 e = true
       /\ In e (rows (SoftDeleteManager.deleted_only "Author")
                  (db (snd (SoftDeleteModel.delete Library.clock Library.meta Library.no_cache
                              Library.author1 Library.w0))))
       /\ In e (rows (SoftDeleteManager.get_all "Author")
                  (db (snd (SoftDeleteModel.delete Library.clock Library.meta Library.no_cache
                              Library.author1 Library.w0)))).
Proof.
  destruct (@default_lookup_excludes_deleted Library.clock Library.meta Library.no_cache
              Library.author1 Library.w0 "Author" Library.rows0 eq_refl)
    as (_ & _ & _ & Hgone & Hfound).
  split; [apply existsb_none; exact Hgone|exact Hfound].
Defined.

(** C5.  The per-record [delete()] is idempotent: a second call on the
    record the first call left answers the same record in the same world;
    it takes no reading of the clock and issues no statement. *)
Theorem delete_idempotent
        (clock : nat -> Timestamp) (meta : ModelName -> Options) (cache : PrefetchCache)
        (self : Entity) (w : World) :
  SoftDeleteModel.delete clock meta cache
    (fst (SoftDeleteModel.delete clock meta cache self w))
    (snd (SoftDeleteModel.delete clock meta cache self w))
  = SoftDeleteModel.delete clock meta cache self w
  /\ writes (snd (SoftDeleteModel.delete clock meta cache
                    (fst (SoftDeleteModel.delete clock meta cache self w))
                    (snd (SoftDeleteModel.delete clock meta cache self w))))
     = writes (snd (SoftDeleteModel.delete clock meta cache self w)).
Proof.
  assert (Heq : SoftDeleteModel.delete clock meta cache
                  (fst (SoftDeleteModel.delete clock meta cache self w))
                  (snd (SoftDeleteModel.delete clock meta cache self w))
                = SoftDeleteModel.delete clock meta cache self w).
  { destruct (is_deleted self) eqn:Hflag.
    - rewrite (soft_delete_deleted clock meta cache self w Hflag); cbn [fst snd].
      apply soft_delete_deleted; exact Hflag.
    - rewrite (soft_delete_active clock meta cache self w Hflag); cbn [fst snd].
      apply soft_delete_deleted; reflexivity. }
  split; [exact Heq|rewrite Heq; reflexivity].
Qed.

(** C7.  [restore()] on an active record does nothing: the record and the
    world, its database and its log of statements, are as before. *)
Theorem restore_active_is_noop
        (meta : ModelName -> Options) (cache : PrefetchCache) (self : Entity) (w : World)
        (Hactive : is_deleted self = false) :
  SoftDeleteModel.restore meta cache self w = (self, w).
Proof. apply restore_active; exact Hactive. Qed.

Lemma restore_active_is_noop_witness :
  SoftDeleteModel.restore Library.meta Library.no_cache Library.author1 Library.w0
  = (Library.author1, Library.w0).
Proof.
  exact (@restore_active_is_noop Library.meta Library.no_cache Library.author1 Library.w0 eq_refl).
Defined.

(** C8.  [delete()] on a queryset answers the number of rows the queryset
    selects, sets [is_deleted] and [deleted_at], to one reading of the
    clock, on each of them, and leaves every other row of every model as it
    was: it issues a single UPDATE and no cascade. *)
Theorem queryset_delete_is_shallow
        (clock : nat -> Timestamp) (qs : QuerySet) (w : World) :
  fst (SoftDeleteQuerySet.delete clock qs w) = List.length (rows qs (db w))
  /\ (forall i e, nth_error (db w) i = Some e -> selects qs e = true ->
        nth_error (db (snd (SoftDeleteQuerySet.delete clock qs w))) i
        = Some (set_flags true (Some (clock (reads w))) e))
  /\ (forall i e, nth_error (db w) i = Some e -> selects qs e = false ->
        nth_error (db (snd (SoftDeleteQuerySet.delete clock qs w))) i = Some e)
  /\ List.length (db (snd (SoftDeleteQuerySet.delete clock qs w)))
     = List.length (db w)
  /\ writes (snd (SoftDeleteQuerySet.delete clock qs w))
     = (writes w ++ [UpdateRows qs true (Some (clock (reads w)))])%list.
Proof.
  unfold SoftDeleteQuerySet.delete, SoftDeleteQuerySet._soft_delete.
  rewrite bind_run; cbn [fst snd now update db reads writes].
  split; [reflexivity|split; [|split; [|split]]].
  - intros i e Hi Hsel; rewrite nth_error_map, Hi; simpl; rewrite Hsel; reflexivity.
  - intros i e Hi Hsel; rewrite nth_error_map, Hi; simpl; rewrite Hsel; reflexivity.
  - apply length_map.
  - reflexivity.
Qed.

Lemma queryset_delete_is_shallow_witness :
  nth_error (db (snd (SoftDeleteQuerySet.delete Library.clock
                        (SoftDeleteManager.get_all "Book") Library.w0))) 2
  = Some (mkEntity "Book" 1 [("author", 1)] true (Some 100%Z))
  /\ nth_error (db (snd (SoftDeleteQuerySet.delete Library.clock
                           (SoftDeleteManager.get_all "Book") Library.w0))) 5
     = Some (new_entity "Chapter" 1 [("book", 1)]).
Proof.
  destruct (queryset_delete_is_shallow Library.clock
              (SoftDeleteManager.get_all "Book") Library.w0)
    as (_ & Hin & Hout & _).
  split.
  - exact (Hin 2 (new_entity "Book" 1 [("author", 1)]) eq_refl eq_refl).
  - exact (Hout 5 (new_entity "Chapter" 1 [("book", 1)]) eq_refl eq_refl).
Defined.

(** ** The physical delete *)

Lemma in_keys_self (self e : Entity) : in_keys [key self] e = same_key self e.
Proof. unfold in_keys, same_key, key; simpl; apply orb_false_r. Qed.

Lemma in_keys_true (ks : list (ModelName * nat)) (e : Entity) :
  in_keys ks e = true <-> In (key e) ks.
Proof.
  unfold in_keys; rewrite existsb_exists; split.
  - intros ([m k] & Hin & Hk); simpl in Hk.
    apply andb_true_iff in Hk; destruct Hk as [Hm Hp].
    apply String.eqb_eq in Hm; apply Nat.eqb_eq in Hp; subst; exact Hin.
  - intros Hin; exists (key e); split; [exact Hin|]; simpl.
    rewrite String.eqb_refl, Nat.eqb_refl; reflexivity.
Qed.

Lemma points_at_true (meta : ModelName -> Options) (p : OnDelete -> bool)
      (ks : list (ModelName * nat)) (e : Entity) :
  points_at meta p ks e = true <->
  exists k related,
    In k ks /\ In related (related_objects (meta (fst k)))
    /\ p (on_delete related) = true
    /\ selects (pointing_at related (snd k)) e = true.
Proof.
  unfold points_at; rewrite existsb_exists; split.
  - intros (k & Hk & Hex); apply existsb_exists in Hex.
    destruct Hex as (related & Hin & Hb); apply andb_true_iff in Hb.
    exists k, related; tauto.
  - intros (k & related & Hk & Hin & Hp & Hsel); exists k; split; [exact Hk|].
    apply existsb_exists; exists related; split; [exact Hin|].
    rewrite Hp, Hsel; reflexivity.
Qed.

(** What is collected holds the keys it started from, and taken keys
    only. *)
Lemma collect_grows (meta : ModelName -> Options) (fuel : nat) (table : list Entity)
      (ks : list (ModelName * nat)) (k : ModelName * nat) :
  In k ks -> In k (collect meta fuel table ks).
Proof.
  revert ks; induction fuel as [|fuel IH]; intros ks Hk; simpl; [exact Hk|].
  apply IH; apply in_or_app; left; exact Hk.
Qed.

Lemma collect_taken (meta : ModelName -> Options) (table : list Entity) (self : Entity)
      (fuel : nat) (ks : list (ModelName * nat)) :
  (forall k, In k ks -> taken meta table self k) ->
  forall k, In k (collect meta fuel table ks) -> taken meta table self k.
Proof.
  revert ks; induction fuel as [|fuel IH]; intros ks Hks; simpl; [exact Hks|].
  apply IH; intros k Hk; apply in_app_or in Hk; destruct Hk as [Hk|Hk]; [auto|].
  apply in_map_iff in Hk; destruct Hk as (e & <- & He).
  apply filter_In in He; destruct He as [He Hp].
  apply andb_true_iff in Hp; destruct Hp as [Hp _].
  apply points_at_true in Hp.
  destruct Hp as (k & related & Hk & Hin & Hc & Hsel).
  apply (taken_next meta table self k e); [auto|exact He|].
  apply points_at_true; exists k, related; simpl; auto.
Qed.

Lemma set_null_through_flags (k : ModelName * nat) (e : Entity) (related : ForeignObjectRel) :
  key (set_null_through k e related) = key e
  /\ is_deleted (set_null_through k e related) = is_deleted e
  /\ deleted_at (set_null_through k e related) = deleted_at e.
Proof.
  unfold set_null_through.
  destruct (is_SET_NULL (on_delete related) && selects (pointing_at related (snd k)) e);
    repeat split.
Qed.

Lemma fold_left_keeps {A B} (P : A -> Prop) (f : A -> B -> A) (l : list B) (a : A) :
  (forall x b, P x -> P (f x b)) -> P a -> P (fold_left f l a).
Proof.
  intros Hf; revert a; induction l as [|b l IH]; intros a Ha; simpl; auto.
Qed.

(** [SET_NULL] rewrites foreign keys: the key and the flags of a row are
    left alone. *)
Lemma set_null_flags (meta : ModelName -> Options) (ks : list (ModelName * nat))
      (e : Entity) :
  key (set_null meta ks e) = key e
  /\ is_deleted (set_null meta ks e) = is_deleted e
  /\ deleted_at (set_null meta ks e) = deleted_at e.
Proof.
  unfold set_null.
  apply (fold_left_keeps
           (fun x => key x = key e /\ is_deleted x = is_deleted e
                     /\ deleted_at x = deleted_at e)); [|repeat split].
  intros x k Hx.
  apply (fold_left_keeps
           (fun y => key y = key e /\ is_deleted y = is_deleted e
                     /\ deleted_at y = deleted_at e)); [|exact Hx].
  intros y related (H1 & H2 & H3).
  destruct (set_null_through_flags k y related) as (G1 & G2 & G3).
  repeat split; congruence.
Qed.

Lemma same_key_of_key (self e e' : Entity) :
  key e' = key e -> same_key self e' = same_key self e.
Proof.
  unfold key; intros H; injection H as Hm Hp.
  apply same_key_along; assumption.
Qed.

(** A record nothing points at is deleted alone: the delete is answered,
    every other row is as it was, and the answer counts the rows of the
    record. *)
Lemma Model_delete_alone (meta : ModelName -> Options) (self : Entity) (w : World) :
  (forall e, In e (db w) -> points_at meta (fun _ => true) [key self] e = false) ->
  Model_delete meta self w
  = Some (List.length (filter (same_key self) (db w)),
          {| db := filter (fun e => negb (same_key self e)) (db w);
             reads := reads w;
             writes := writes w
                       ++ map (fun e => PhysicalDelete (model e) (pk e))
                              (filter (same_key self) (db w)) |}).
Proof.
  intros Hnone.
  assert (Hp : forall p e, In e (db w) -> points_at meta p [key self] e = false).
  { intros p e He; destruct (points_at meta p [key self] e) eqn:Hpe; [|reflexivity].
    apply points_at_true in Hpe.
    destruct Hpe as (k & related & Hk & Hin & _ & Hsel).
    assert (Hall : points_at meta (fun _ => true) [key self] e = true)
      by (apply points_at_true; exists k, related; auto).
    rewrite (Hnone e He) in Hall; discriminate. }
  assert (Hks : forall fuel, collect meta fuel (db w) [key self] = [key self]).
  { induction fuel as [|fuel IH]; [reflexivity|].
    cbn [collect]; rewrite filter_none; [exact IH|].
    intros e He; cbv beta; rewrite (Hp is_CASCADE e He); reflexivity. }
  unfold Model_delete; rewrite Hks.
  assert (Hok : refused meta [key self] (db w) = false).
  { unfold refused; apply existsb_none; intros e He.
    rewrite !(Hp _ e He), andb_false_r; reflexivity. }
  rewrite Hok.
  rewrite (filter_ext (in_keys [key self]) (same_key self) (in_keys_self self)).
  rewrite (filter_ext (fun e => negb (in_keys [key self] e))
                      (fun e => negb (same_key self e))
                      (fun e => f_equal negb (in_keys_self self e))).
  repeat f_equal.
  rewrite <- (map_id (filter (fun e => negb (same_key self e)) (db w))) at 2.
  apply map_ext_in; intros e He; apply filter_In in He; destruct He as [He _].
  unfold set_null; simpl.
  assert (Hsel : forall related,
             In related (related_objects (meta (model self))) ->
             selects (pointing_at related (pk self)) e = false).
  { intros related Hin.
    destruct (selects (pointing_at related (pk self)) e) eqn:Hsel; [|reflexivity].
    assert (Hall : points_at meta (fun _ => true) [key self] e = true)
      by (apply points_at_true; exists (key self), related; simpl; auto).
    rewrite (Hnone e He) in Hall; discriminate. }
  revert Hsel; generalize (related_objects (meta (model self))); intros l Hsel.
  induction l as [|related l IH]; simpl; [reflexivity|].
  unfold set_null_through at 2; simpl.
  rewrite (Hsel related (or_introl eq_refl)), andb_false_r.
  apply IH; intros r Hr; apply Hsel; right; exact Hr.
Qed.

(** C9.  [hard_delete()] is the physical delete of the persistence layer
    and adds nothing to it.  When the delete is answered, no queryset,
    filtered or not, answers a row under the key of the record afterwards.
    The flags play no part: the result is the same whatever the flags of the
    record, every row that is left has the flags it had, the clock is not
    read and the only statements issued are physical deletes, as many as the
    count answered.  The delete is for the record: a row goes only if its
    key is the record's or it points at the record through a chain of
    [CASCADE] relations, the referential action of the storage layer; a
    record nothing points at goes alone and every other row is as it was. *)
Theorem hard_delete_removes
        (meta : ModelName -> Options) (self : Entity) (w : World)
        (n : nat) (w' : World)
        (Hdone : SoftDeleteModel.hard_delete meta self w = Some (n, w')) :
  (forall qs e, In e (rows qs (db w')) -> same_key self e = false)
  /\ (forall e', In e' (db w') ->
        exists e, In e (db w) /\ key e' = key e
                  /\ is_deleted e' = is_deleted e /\ deleted_at e' = deleted_at e)
  /\ (forall e, In e (db w) -> ~ taken meta (db w) self (key e) ->
        exists e', In e' (db w') /\ key e' = key e
                   /\ is_deleted e' = is_deleted e /\ deleted_at e' = deleted_at e)
  /\ (reads w' = reads w
      /\ exists ds, writes w' = (writes w ++ ds)%list
                    /\ Forall (fun s => exists m k, s = PhysicalDelete m k) ds
                    /\ List.length ds = n)
  /\ (forall flag stamp,
         SoftDeleteModel.hard_delete meta (set_flags flag stamp self) w = Some (n, w'))
  /\ ((forall e, In e (db w) -> points_at meta (fun _ => true) [key self] e = false) ->
      db w' = filter (fun e => negb (same_key self e)) (db w)
      /\ n = List.length (filter (same_key self) (db w))).
Proof.
  assert (Hflags : forall flag stamp,
             SoftDeleteModel.hard_delete meta (set_flags flag stamp self) w
             = Some (n, w')) by (intros flag stamp; exact Hdone).
  assert (Halone : (forall e, In e (db w) ->
                      points_at meta (fun _ => true) [key self] e = false) ->
                   db w' = filter (fun e => negb (same_key self e)) (db w)
                   /\ n = List.length (filter (same_key self) (db w))).
  { intros Hnone; unfold SoftDeleteModel.hard_delete in Hdone.
    rewrite (Model_delete_alone meta self w Hnone) in Hdone.
    injection Hdone as <- <-; split; reflexivity. }
  unfold SoftDeleteModel.hard_delete, Model_delete in Hdone.
  set (ks := collect meta (List.length (db w)) (db w) [key self]) in Hdone.
  destruct (refused meta ks (db w)); [discriminate|].
  injection Hdone as <- <-; cbn [db reads writes].
  assert (Hself : forall e, same_key self e = true -> in_keys ks e = true).
  { intros e Hk; apply in_keys_true; unfold ks; apply collect_grows.
    apply in_keys_true; rewrite in_keys_self; exact Hk. }
  assert (Hleft : forall e',
             In e' (map (set_null meta ks)
                        (filter (fun e => negb (in_keys ks e)) (db w))) ->
             exists e, In e (db w) /\ in_keys ks e = false /\ key e' = key e
                       /\ is_deleted e' = is_deleted e
                       /\ deleted_at e' = deleted_at e).
  { intros e' He'; apply in_map_iff in He'; destruct He' as (e & <- & He).
    apply filter_In in He; destruct He as [He Hout].
    apply negb_true_iff in Hout.
    destruct (set_null_flags meta ks e) as (H1 & H2 & H3).
    exists e; auto. }
  split; [|split; [|split; [|split; [|split]]]].
  - intros qs e' He'; unfold rows in He'; apply filter_In in He'.
    destruct He' as [He' _].
    destruct (Hleft e' He') as (e & _ & Hout & Hk & _).
    rewrite (same_key_of_key self e e' Hk).
    destruct (same_key self e) eqn:Hse; [|reflexivity].
    rewrite (Hself e Hse) in Hout; discriminate.
  - intros e' He'; destruct (Hleft e' He') as (e & He & _ & Hrest).
    exists e; auto.
  - intros e He Hfree.
    assert (Hout : in_keys ks e = false).
    { destruct (in_keys ks e) eqn:Hin; [|reflexivity].
      exfalso; apply Hfree; apply in_keys_true in Hin.
      apply (collect_taken meta (db w) self (List.length (db w)) [key self]);
        [|exact Hin].
      intros k [<-|[]]; constructor. }
    exists (set_null meta ks e); split.
    + apply in_map_iff; exists e; split; [reflexivity|].
      apply filter_In; split; [exact He|rewrite Hout; reflexivity].
    + apply set_null_flags.
  - split; [reflexivity|].
    exists (map (fun e => PhysicalDelete (model e) (pk e))
                (filter (in_keys ks) (db w))).
    split; [reflexivity|split; [|apply length_map]].
    apply Forall_forall; intros s Hs; apply in_map_iff in Hs.
    destruct Hs as (e & <- & _); eexists; eexists; reflexivity.
  - exact Hflags.
  - exact Halone.
Qed.

(** The author of the library is deleted with the seven records that point
    at it through [CASCADE]: two books and the chapter of one of them, two
    reviews, the profile and the invoice; the draft loses its author. *)
Lemma hard_delete_removes_witness :
  SoftDeleteModel.hard_delete Library.meta Library.author1 Library.w0
  = Some Library.hard_deleted
  /\ fst Library.hard_deleted = 8
  /\ db (snd Library.hard_deleted)
     = [ new_entity "Author" 2 [];
         new_entity "Book" 3 [("author", 2)];
         new_entity "Draft" 1 [] ]
  /\ existsb (same_key Library.author1)
       (rows (SoftDeleteManager.get_all "Author") (db (snd Library.hard_deleted)))
     = false.
Proof.
  assert (Hdone : SoftDeleteModel.hard_delete Library.meta Library.author1 Library.w0
                  = Some (fst Library.hard_deleted, snd Library.hard_deleted))
    by reflexivity.
  split; [exact Hdone|]. split; [reflexivity|]. split; [reflexivity|].
  apply existsb_none.
  exact (proj1 (@hard_delete_removes Library.meta Library.author1 Library.w0
                  (fst Library.hard_deleted) (snd Library.hard_deleted) Hdone)
               (SoftDeleteManager.get_all "Author")).
Defined.



(** With a prefetch cache the UPDATE of line 75 goes to the cached
    queryset.  On an author loaded with
    [Prefetch("book_set", queryset=Book.objects.deleted_only())] the cache
    holds the deleted books only: after [delete()] book 1, which points at
    the author through a [CASCADE] foreign key, is still active. *)
Lemma delete_skips_rows_outside_cache :
  let cache : PrefetchCache :=
    fun related =>
      if String.eqb (related_model related) "Book" then Some [IsDeleted true]
      else None in
  nth_error (db (snd (SoftDeleteModel.delete Library.clock Library.meta cache
                        Library.author1 Library.w0))) 2
  = Some (new_entity "Book" 1 [("author", 1)]).
Proof. reflexivity. Qed.


(** C6.  [delete()] and then [restore()] on an active record whose
    [deleted_at] is null gives the record back: [is_deleted] is false and
    [deleted_at] is null again, on the instance and on the stored row.  The
    timestamp set in between is the reading of the clock; nothing of it is
    left. *)
Theorem delete_restore_round_trip
        (clock : nat -> Timestamp) (meta : ModelName -> Options) (cache : PrefetchCache)
        (self : Entity) (w : World)
        (Hactive : is_deleted self = false) (Hnull : deleted_at self = None) :
  let d := SoftDeleteModel.delete clock meta cache self w in
  let r := SoftDeleteModel.restore meta cache (fst d) (snd d) in
  (is_deleted (fst d) = true /\ deleted_at (fst d) = Some (clock (reads w)))
  /\ fst r = self
  /\ (is_deleted (fst r) = false /\ deleted_at (fst r) = None)
  /\ In self (db (snd r))
  /\ (forall e, In e (db (snd r)) -> same_key self e = true -> e = self).
Proof.
  intros d r; subst r d.
  rewrite (soft_delete_active clock meta cache self w Hactive); cbn [fst snd].
  set (self' := set_flags true (Some (clock (reads w))) self).
  set (w' := snd (for_each _ _ _)).
  assert (Hdel : is_deleted self' = true) by reflexivity.
  assert (Hback : set_flags false None self' = self)
    by (change (set_flags false None self = self);
        apply set_flags_clean; assumption).
  destruct (restore_deleted_rows meta cache self' w' Hdel) as [_ HF].
  unfold saved_restored in HF.
  rewrite (restore_deleted meta cache self' w' Hdel) in *; cbn [fst snd] in *.
  rewrite Hback in *.
  split; [split; reflexivity|].
  split; [reflexivity|].
  split; [split; assumption|].
  split.
  - destruct (Forall2_pick_l _ _ _ _ HF (save_stores self w')) as (y & Hy & Hsy).
    rewrite (rewound_clean self y Hactive Hnull Hsy) in Hy; exact Hy.
  - intros e He Hk.
    destruct (Forall2_pick_r _ _ _ e HF He) as (x & Hx & Hxe).
    destruct (rewound_shape _ _ Hxe) as (Hm & Hp & _).
    rewrite (same_key_along self _ _ Hm Hp) in Hk.
    rewrite (save_under_key self w' x Hx Hk) in Hxe.
    exact (rewound_clean self e Hactive Hnull Hxe).
Qed.

Lemma delete_restore_round_trip_witness :
  fst (SoftDeleteModel.restore Library.meta Library.no_cache
         (fst (SoftDeleteModel.delete Library.clock Library.meta Library.no_cache
                 Library.author1 Library.w0))
         (snd (SoftDeleteModel.delete Library.clock Library.meta Library.no_cache
                 Library.author1 Library.w0)))
  = Library.author1.
Proof.
  exact (proj1 (proj2
    (@delete_restore_round_trip Library.clock Library.meta Library.no_cache
       Library.author1 Library.w0 eq_refl eq_refl))).
Defined.

(** C10.  Let a relation be [CASCADE], with a related manager for accessor
    built on Django's [Manager], the first manager [SoftDeleteModel]
    declares (line 54), and with a soft-delete model at the other end; let
    the instance carry no prefetch cache for the accessor.  [delete()] on
    an active record then updates every record that points at it through
    the relation, whatever its flags: such a record ends flagged
    deleted with a [deleted_at] read from the clock during the call, also
    when it was deleted before, and its earlier timestamp is lost. *)
Theorem cascade_overwrites_deleted_at
        (clock : nat -> Timestamp) (meta : ModelName -> Options) (cache : PrefetchCache)
        (self : Entity) (w : World) (related : ForeignObjectRel)
        (i : nat) (e : Entity)
        (Hactive : is_deleted self = false)
        (Hin : In related (related_objects (meta (model self))))
        (Hcascade : on_delete related = CASCADE)
        (Hmany : rel_kind related = ManyToOneRel)
        (Hsoft : soft (meta (related_model related)) = true)
        (Hmanager : default_manager_class (meta (related_model related)) = DjangoManager)
        (Hnocache : cache related = None)
        (Hi : nth_error (db w) i = Some e)
        (Hpoints : selects (pointing_at related (pk self)) e = true) :
  exists e' n,
    nth_error (db (snd (SoftDeleteModel.delete clock meta cache self w))) i = Some e'
    /\ model e' = model e /\ pk e' = pk e
    /\ is_deleted e' = true
    /\ deleted_at e' = Some (clock n)
    /\ reads w <= n < reads (snd (SoftDeleteModel.delete clock meta cache self w))
    /\ (same_key self e = false -> refs e' = refs e /\ reads w < n).
Proof.
  destruct (delete_active_rows clock meta cache self w Hactive) as [Hr HF].
  pose proof (save_at (set_flags true (Some (clock (reads w))) self)
                      (snd (now clock w)) i e Hi) as Hi1.
  change (same_key (set_flags true (Some (clock (reads w))) self) e)
    with (same_key self e) in Hi1.
  destruct (Forall2_at _ _ _ i _ HF Hi1) as (e' & Hi' & Hfl).
  destruct (same_key self e) eqn:Hk.
  - apply same_key_true in Hk; destruct Hk as [Hm Hp].
    destruct Hfl as [->|(_ & n & Hn & ->)].
    + exists (set_flags true (Some (clock (reads w))) self), (reads w).
      split; [exact Hi'|]. simpl.
      split; [exact Hm|]. split; [exact Hp|]. split; [reflexivity|].
      split; [reflexivity|]. split; [lia|discriminate].
    + exists (set_flags true (Some (clock n))
                (set_flags true (Some (clock (reads w))) self)), n.
      split; [exact Hi'|]. simpl.
      split; [exact Hm|]. split; [exact Hp|]. split; [reflexivity|].
      split; [reflexivity|]. split; [lia|discriminate].
  - assert (Hb : cascadesb meta related = true) by (apply cascadesb_true; auto).
    destruct (flagged_shape _ _ _ _ _ _ _ Hfl) as (Hm & Hp & Hrefs).
    assert (Hsel' : selects (pointing_at related (pk self)) e' = true)
      by (rewrite (selects_pointing_at_along related (pk self) e e' Hm Hrefs);
          exact Hpoints).
    assert (He' : In e' (db (snd (SoftDeleteModel.delete clock meta cache self w))))
      by (eapply nth_error_In; exact Hi').
    revert He' Hr Hi'.
    rewrite (soft_delete_active clock meta cache self w Hactive); cbn [snd].
    intros He' Hr Hi'.
    destruct (soft_delete_loop_stamps clock meta cache
                (set_flags true (Some (clock (reads w))) self) _ related _ e'
                Hin Hb Hnocache Hmanager He' Hsel') as (Hd & n & Hn & Hat).
    assert (Hs : reads (saved_deleted clock self w) = S (reads w)) by reflexivity.
    unfold saved_deleted in Hs.
    exists e', n.
    split; [exact Hi'|]. split; [exact Hm|]. split; [exact Hp|].
    split; [exact Hd|]. split; [exact Hat|]. split; [lia|].
    intros _; split; [exact Hrefs|lia].
Qed.

Lemma cascade_overwrites_deleted_at_witness :
  exists e' n,
    nth_error (db (snd (SoftDeleteModel.delete Library.clock Library.meta Library.no_cache
                          Library.author1 Library.w0))) 3 = Some e'
    /\ model e' = "Book" /\ pk e' = 2
    /\ is_deleted e' = true
    /\ deleted_at e' = Some (Library.clock n)
    /\ 0 <= n < reads (snd (SoftDeleteModel.delete Library.clock Library.meta Library.no_cache
                              Library.author1 Library.w0))
    /\ (same_key Library.author1
          (mkEntity "Book" 2 [("author", 1)] true (Some 5%Z)) = false ->
        refs e' = [("author", 1)] /\ 0 < n).
Proof.
  exact (@cascade_overwrites_deleted_at Library.clock Library.meta Library.no_cache
           Library.author1 Library.w0
           (mkRel CASCADE ManyToOneRel "Book" "author") 3
           (mkEntity "Book" 2 [("author", 1)] true (Some 5%Z))
           eq_refl (or_introl eq_refl) eq_refl eq_refl eq_refl eq_refl
           eq_refl eq_refl eq_refl).
Defined.

(** With a prefetch cache the UPDATE of line 75 goes to the cached
    queryset, whatever the manager.  On an author loaded with the cache of
    [Library.prefetched], active books and all reviews, book 2 keeps the
    time of its earlier deletion although Django's manager is behind the
    accessor, and review 2 gets a new one although a [SoftDeleteManager]
    is. *)
Lemma delete_follows_the_cache :
  nth_error (db (snd (SoftDeleteModel.delete Library.clock Library.meta
                        Library.prefetched Library.author1 Library.w0))) 3
  = Some (mkEntity "Book" 2 [("author", 1)] true (Some 5%Z))
  /\ nth_error (db (snd (SoftDeleteModel.delete Library.clock Library.meta
                           Library.prefetched Library.author1 Library.w0))) 7
     = Some (mkEntity "Review" 2 [("author", 1)] true (Some 120%Z)).
Proof. split; reflexivity. Qed.

(** C10, as first stated, fails when the related manager is a
    [SoftDeleteManager]: its [all()] is filtered to the active rows (line
    38).  [Review] declares [SoftDeleteManager] as its default manager;
    review 2 was deleted at time 7 and is still deleted at time 7 after
    [delete()] on its author, while review 1 carries a reading of the
    clock. *)
Lemma cascade_spares_deleted_under_soft_manager :
  let related := mkRel CASCADE ManyToOneRel "Review" "author" in
  let old := mkEntity "Review" 2 [("author", 1)] true (Some 7%Z) in
  In related (related_objects (Library.meta (model Library.author1)))
  /\ on_delete related = CASCADE
  /\ soft (Library.meta (related_model related)) = true
  /\ nth_error (db Library.w0) 7 = Some old
  /\ selects (pointing_at related (pk Library.author1)) old = true
  /\ nth_error (db (snd (SoftDeleteModel.delete Library.clock Library.meta Library.no_cache
                           Library.author1 Library.w0))) 7 = Some old
  /\ (forall n, deleted_at old <> Some (Library.clock n)).
Proof.
  cbv zeta.
  assert (Hlost : forall n, Some 7%Z <> Some (Library.clock n)).
  { intros n H; injection H as H; unfold Library.clock in H; lia. }
  split; [simpl; auto|].
  split; [reflexivity|]. split; [reflexivity|]. split; [reflexivity|].
  split; [reflexivity|]. split; [reflexivity|exact Hlost].
Qed.

(** C3.  [restore()] brings no deleted related record back.  The UPDATE of
    line 97 goes to [related_manager.all()], not to the queryset of line
    94: a manager without [deleted_only] is skipped by line 93, and a
    manager with it is a [SoftDeleteManager], whose [all()] holds active
    rows only.  So every row that was flagged deleted, the record's own
    apart, is exactly as it was after the call, on an instance that carries
    no prefetch cache for the relations through which the row points at
    it. *)
Theorem restore_keeps_related_deleted
        (meta : ModelName -> Options) (cache : PrefetchCache) (self : Entity) (w : World)
        (i : nat) (e : Entity)
        (Hdeleted : is_deleted self = true)
        (Hi : nth_error (db w) i = Some e)
        (Hflag : is_deleted e = true)
        (Hother : same_key self e = false)
        (Hnocache : forall related,
            In related (related_objects (meta (model self))) ->
            selects (pointing_at related (pk self)) e = true ->
            cache related = None) :
  is_deleted (fst (SoftDeleteModel.restore meta cache self w)) = false
  /\ deleted_at (fst (SoftDeleteModel.restore meta cache self w)) = None
  /\ nth_error (db (snd (SoftDeleteModel.restore meta cache self w))) i = Some e.
Proof.
  pose proof (save_at (set_flags false None self) w i e Hi) as Hi1.
  change (same_key (set_flags false None self) e) with (same_key self e) in Hi1.
  rewrite Hother in Hi1.
  rewrite (restore_deleted meta cache self w Hdeleted); cbn [fst snd].
  split; [reflexivity|split; [reflexivity|]].
  apply restore_loop_spares; [|exact Hi1].
  intros related Hin Hguard; rewrite selects_all.
  apply andb_true_iff in Hguard; destruct Hguard as [_ Hattr].
  destruct (selects (pointing_at related
                       (pk (set_flags false None self))) e) eqn:Hsel.
  - rewrite (Hnocache related Hin Hsel).
    destruct (default_manager_class (meta (related_model related)));
      [discriminate|].
    rewrite Hflag; reflexivity.
  - destruct (cache related); [apply andb_false_r|].
    destruct (default_manager_class (meta (related_model related)));
      [reflexivity|apply andb_false_r].
Qed.

(** The author is deleted, which flags book 1 through a Django manager and
    review 1 through a [SoftDeleteManager], and restored: the author is
    active again, the book and the review are still deleted. *)
Lemma restore_keeps_related_deleted_witness :
  let d := SoftDeleteModel.delete Library.clock Library.meta Library.no_cache
             Library.author1 Library.w0 in
  let r := SoftDeleteModel.restore Library.meta Library.no_cache (fst d) (snd d) in
  is_deleted (fst r) = false
  /\ nth_error (db (snd r)) 2
     = Some (mkEntity "Book" 1 [("author", 1)] true (Some 110%Z))
  /\ nth_error (db (snd r)) 6
     = Some (mkEntity "Review" 1 [("author", 1)] true (Some 120%Z)).
Proof.
  cbv zeta.
  set (d := SoftDeleteModel.delete Library.clock Library.meta Library.no_cache
              Library.author1 Library.w0).
  destruct (@restore_keeps_related_deleted Library.meta Library.no_cache (fst d) (snd d) 2
              (mkEntity "Book" 1 [("author", 1)] true (Some 110%Z))
              eq_refl eq_refl eq_refl eq_refl (fun _ _ _ => eq_refl))
    as (Hself & _ & Hbook).
  destruct (@restore_keeps_related_deleted Library.meta Library.no_cache (fst d) (snd d) 6
              (mkEntity "Review" 1 [("author", 1)] true (Some 120%Z))
              eq_refl eq_refl eq_refl eq_refl (fun _ _ _ => eq_refl))
    as (_ & _ & Hreview).
  split; [exact Hself|split; [exact Hbook|exact Hreview]].
Defined.

(** * Further properties of the module *)

(** ** Filters *)

Lemma selects_qs_filter (l : Lookup) (qs : QuerySet) (e : Entity) :
  selects (qs_filter l qs) e = selects qs e && holds l e.
Proof.
  unfold selects, qs_filter; simpl.
  rewrite forallb_app; simpl; rewrite andb_true_r, andb_assoc; reflexivity.
Qed.

Lemma selects_active_of (qs : QuerySet) (e : Entity) :
  selects (SoftDeleteQuerySet.active qs) e = selects qs e && negb (is_deleted e).
Proof.
  unfold SoftDeleteQuerySet.active; rewrite selects_qs_filter; simpl.
  destruct (is_deleted e); reflexivity.
Qed.

Lemma selects_deleted_of (qs : QuerySet) (e : Entity) :
  selects (SoftDeleteQuerySet.deleted qs) e = selects qs e && is_deleted e.
Proof.
  unfold SoftDeleteQuerySet.deleted; rewrite selects_qs_filter; simpl.
  destruct (is_deleted e); reflexivity.
Qed.

Lemma filter_split_length {A} (f g h : A -> bool) (l : list A) :
  (forall x, f x = true -> xorb (g x) (h x) = true) ->
  (forall x, f x = false -> g x = false /\ h x = false) ->
  List.length (filter f l)
  = List.length (filter g l) + List.length (filter h l).
Proof.
  intros Hin Hout; induction l as [|a l IH]; simpl; [reflexivity|].
  destruct (f a) eqn:Hfa.
  - specialize (Hin a Hfa).
    destruct (g a), (h a); simpl in *; try discriminate; rewrite IH; lia.
  - destruct (Hout a Hfa) as [-> ->]; exact IH.
Qed.

(** A lookup-free-of-flags queryset selects a row whatever its flags. *)
Lemma selects_flag_free (qs : QuerySet) (flag : bool) (stamp : option Timestamp)
      (e : Entity) :
  flag_free qs = true -> selects qs (set_flags flag stamp e) = selects qs e.
Proof.
  unfold flag_free, selects; simpl; intros Hfree; f_equal.
  induction (qs_where qs) as [|l ls IH]; simpl in *; [reflexivity|].
  apply andb_true_iff in Hfree; destruct Hfree as [Hl Hls].
  rewrite (IH Hls); f_equal.
  destruct l; simpl in *; [discriminate|reflexivity].
Qed.

(** An UPDATE that selects no row leaves the database as it is. *)
Lemma update_nothing (qs : QuerySet) (flag : bool) (stamp : option Timestamp) (w : World) :
  rows qs (db w) = [] ->
  fst (update qs flag stamp w) = 0 /\ db (snd (update qs flag stamp w)) = db w.
Proof.
  intros Hnone; simpl; rewrite Hnone; split; [reflexivity|].
  assert (Hno : forall e, In e (db w) -> selects qs e = false).
  { intros e He; destruct (selects qs e) eqn:Hsel; [|reflexivity].
    assert (Hin : In e (rows qs (db w))) by (apply filter_In; auto).
    rewrite Hnone in Hin; contradiction. }
  revert Hno; generalize (db w); intros l Hno.
  induction l as [|a l IH]; simpl; [reflexivity|].
  rewrite (Hno a (or_introl eq_refl)), IH; [reflexivity|].
  intros e He; apply Hno; right; exact He.
Qed.

(** After an UPDATE that sets [is_deleted] to [flag], the queryset narrowed
    to the other value of the flag is empty. *)
Lemma update_leaves_none (qs : QuerySet) (flag : bool) (stamp : option Timestamp)
      (w : World) :
  rows (qs_filter (IsDeleted (negb flag)) qs) (db (snd (update qs flag stamp w))) = [].
Proof.
  apply filter_none; intros e' He'; simpl in He'.
  apply in_map_iff in He'; destruct He' as (e & He & _).
  rewrite selects_qs_filter; simpl.
  destruct (selects qs e) eqn:Hsel; subst e'.
  - simpl; destruct flag; simpl; apply andb_false_r.
  - rewrite Hsel; reflexivity.
Qed.

(** X1.  [restore()] on a queryset answers the number of rows the queryset
    selects, clears [is_deleted] and [deleted_at] on each of them, and
    leaves every other row as it was; it reads no clock and issues a single
    UPDATE. *)
Theorem queryset_restore_is_shallow (qs : QuerySet) (w : World) :
  fst (SoftDeleteQuerySet.restore qs w) = List.length (rows qs (db w))
  /\ (forall i e, nth_error (db w) i = Some e -> selects qs e = true ->
        nth_error (db (snd (SoftDeleteQuerySet.restore qs w))) i
        = Some (set_flags false None e))
  /\ (forall i e, nth_error (db w) i = Some e -> selects qs e = false ->
        nth_error (db (snd (SoftDeleteQuerySet.restore qs w))) i = Some e)
  /\ reads (snd (SoftDeleteQuerySet.restore qs w)) = reads w
  /\ writes (snd (SoftDeleteQuerySet.restore qs w))
     = (writes w ++ [UpdateRows qs false None])%list.
Proof.
  unfold SoftDeleteQuerySet.restore; cbn [fst snd update db reads writes].
  split; [reflexivity|split; [|split; [|split]]]; try reflexivity.
  - intros i e Hi Hsel; rewrite nth_error_map, Hi; simpl; rewrite Hsel; reflexivity.
  - intros i e Hi Hsel; rewrite nth_error_map, Hi; simpl; rewrite Hsel; reflexivity.
Qed.

(** X2.  [active()] and [deleted()] split a queryset in two: a row of the
    queryset is in exactly one of them, according to its [is_deleted], and
    the two counts add up to the count of the queryset. *)
Theorem active_deleted_partition (qs : QuerySet) (table : list Entity) :
  (forall e, In e (rows (SoftDeleteQuerySet.active qs) table)
             <-> In e (rows qs table) /\ is_deleted e = false)
  /\ (forall e, In e (rows (SoftDeleteQuerySet.deleted qs) table)
                <-> In e (rows qs table) /\ is_deleted e = true)
  /\ (forall e, In e (rows qs table)
                <-> In e (rows (SoftDeleteQuerySet.active qs) table)
                    \/ In e (rows (SoftDeleteQuerySet.deleted qs) table))
  /\ List.length (rows qs table)
     = List.length (rows (SoftDeleteQuerySet.active qs) table)
       + List.length (rows (SoftDeleteQuerySet.deleted qs) table).
Proof.
  assert (Ha : forall e, In e (rows (SoftDeleteQuerySet.active qs) table)
                         <-> In e (rows qs table) /\ is_deleted e = false).
  { intros e; unfold rows; rewrite !filter_In, selects_active_of, andb_true_iff,
      negb_true_iff; tauto. }
  assert (Hd : forall e, In e (rows (SoftDeleteQuerySet.deleted qs) table)
                         <-> In e (rows qs table) /\ is_deleted e = true).
  { intros e; unfold rows; rewrite !filter_In, selects_deleted_of, andb_true_iff;
      tauto. }
  split; [exact Ha|split; [exact Hd|split]].
  - intros e; rewrite Ha, Hd; destruct (is_deleted e); intuition congruence.
  - unfold rows; apply filter_split_length.
    + intros x Hx; rewrite selects_active_of, selects_deleted_of, Hx.
      destruct (is_deleted x); reflexivity.
    + intros x Hx; rewrite selects_active_of, selects_deleted_of, Hx; auto.
Qed.

(** X3.  The two filters exclude each other: [deleted()] of an [active()]
    queryset is empty, and so is [active()] of a [deleted()] one.  In
    particular [deleted()] chained on the queryset of the default manager
    answers nothing, whatever the database holds. *)
Theorem opposite_filters_are_empty (qs : QuerySet) (m : ModelName) (table : list Entity) :
  rows (SoftDeleteQuerySet.deleted (SoftDeleteQuerySet.active qs)) table = []
  /\ rows (SoftDeleteQuerySet.active (SoftDeleteQuerySet.deleted qs)) table = []
  /\ rows (SoftDeleteQuerySet.deleted (SoftDeleteManager.get_queryset m)) table = [].
Proof.
  assert (H1 : forall q, rows (SoftDeleteQuerySet.deleted (SoftDeleteQuerySet.active q))
                              table = []).
  { intros q; apply filter_none; intros e _.
    rewrite selects_deleted_of, selects_active_of.
    destruct (is_deleted e); simpl; rewrite ?andb_false_r; reflexivity. }
  split; [apply H1|split; [|apply H1]].
  apply filter_none; intros e _.
  rewrite selects_active_of, selects_deleted_of.
  destruct (is_deleted e); simpl; rewrite ?andb_false_r; reflexivity.
Qed.

(** X4.  After [delete()] on a queryset no active row is left in it, and
    after [restore()] on a queryset no deleted row is left in it. *)
Theorem bulk_operations_exhaust (clock : nat -> Timestamp) (qs : QuerySet) (w : World) :
  rows (SoftDeleteQuerySet.active qs)
       (db (snd (SoftDeleteQuerySet.delete clock qs w))) = []
  /\ rows (SoftDeleteQuerySet.deleted qs)
          (db (snd (SoftDeleteQuerySet.restore qs w))) = [].
Proof.
  split.
  - unfold SoftDeleteQuerySet.delete, SoftDeleteQuerySet._soft_delete.
    rewrite bind_run.
    exact (update_leaves_none qs true (Some (fst (now clock w))) (snd (now clock w))).
  - exact (update_leaves_none qs false None w).
Qed.

(** X5.  A bulk delete through an [active()] queryset, such as the one of
    the default manager, is not undone by a bulk restore through the same
    queryset: after the delete the queryset selects nothing, so the restore
    answers 0 and changes no row. *)
Theorem active_delete_is_not_undone (clock : nat -> Timestamp) (qs : QuerySet) (w : World) :
  let w1 := snd (SoftDeleteQuerySet.delete clock (SoftDeleteQuerySet.active qs) w) in
  rows (SoftDeleteQuerySet.active qs) (db w1) = []
  /\ fst (SoftDeleteQuerySet.restore (SoftDeleteQuerySet.active qs) w1) = 0
  /\ db (snd (SoftDeleteQuerySet.restore (SoftDeleteQuerySet.active qs) w1)) = db w1.
Proof.
  intros w1.
  assert (Hnone : rows (SoftDeleteQuerySet.active qs) (db w1) = []).
  { subst w1; unfold SoftDeleteQuerySet.delete, SoftDeleteQuerySet._soft_delete.
    rewrite bind_run; apply filter_none; intros e' He'; simpl in He'.
    apply in_map_iff in He'; destruct He' as (e & He & _).
    destruct (selects (SoftDeleteQuerySet.active qs) e) eqn:Hsel; subst e'.
    - rewrite selects_active_of; simpl; apply andb_false_r.
    - exact Hsel. }
  split; [exact Hnone|].
  exact (update_nothing (SoftDeleteQuerySet.active qs) false None w1 Hnone).
Qed.

(** X6.  On a queryset whose lookups do not read the flags, and whose rows
    are all active with a null [deleted_at], [delete()] followed by
    [restore()] gives the database back, and both answer the same count. *)
Theorem flag_free_delete_restore_round_trip
        (clock : nat -> Timestamp) (qs : QuerySet) (w : World)
        (Hfree : flag_free qs = true)
        (Hclean : forall e, In e (rows qs (db w)) ->
                            is_deleted e = false /\ deleted_at e = None) :
  let w1 := snd (SoftDeleteQuerySet.delete clock qs w) in
  db (snd (SoftDeleteQuerySet.restore qs w1)) = db w
  /\ fst (SoftDeleteQuerySet.restore qs w1) = fst (SoftDeleteQuerySet.delete clock qs w)
  /\ rows (SoftDeleteQuerySet.deleted qs) (db w1) = rows qs (db w1).
Proof.
  intros w1; subst w1.
  unfold SoftDeleteQuerySet.delete, SoftDeleteQuerySet._soft_delete,
    SoftDeleteQuerySet.restore.
  rewrite bind_run; cbn [fst snd now update db reads writes].
  unfold rows in *.
  revert Hclean; generalize (db w); intros l Hclean.
  induction l as [|a l IH]; [repeat split|].
  assert (Htl : forall e, In e (filter (selects qs) l) ->
                          is_deleted e = false /\ deleted_at e = None).
  { intros e He; apply Hclean; simpl; destruct (selects qs a); [right|]; exact He. }
  destruct (IH Htl) as (IH1 & IH2 & IH3); simpl.
  destruct (selects qs a) eqn:Hsa.
  - rewrite (selects_flag_free qs true _ a Hfree), Hsa.
    rewrite selects_deleted_of, (selects_flag_free qs true _ a Hfree), Hsa; simpl.
    destruct (Hclean a) as [Hf Hn]; [simpl; rewrite Hsa; left; reflexivity|].
    change (set_flags false None (set_flags true (Some (clock (reads w))) a))
      with (set_flags false None a).
    rewrite (set_flags_clean a Hf Hn), IH1, IH3.
    simpl in IH2; rewrite IH2; repeat split.
  - rewrite Hsa, selects_deleted_of, Hsa; simpl.
    rewrite IH1, IH3; repeat split; exact IH2.
Qed.

Lemma flag_free_delete_restore_round_trip_witness :
  db (snd (SoftDeleteQuerySet.restore (SoftDeleteManager.get_all "Author")
             (snd (SoftDeleteQuerySet.delete Library.clock
                     (SoftDeleteManager.get_all "Author") Library.w0))))
  = db Library.w0.
Proof.
  refine (proj1 (@flag_free_delete_restore_round_trip Library.clock
                   (SoftDeleteManager.get_all "Author") Library.w0 eq_refl _)).
  intros e He; simpl in He.
  destruct He as [<-|[<-|[]]]; split; reflexivity.
Defined.

(** ** Keys and flags of the stored rows *)

Lemma Forall2_keys (R : Entity -> Entity -> Prop) (l l' : list Entity) :
  (forall x y, R x y -> same_but_flags x y) ->
  Forall2 R l l' -> map key l' = map key l.
Proof.
  intros HR H; induction H as [|x y l l' Hxy _ IH]; simpl; [reflexivity|].
  destruct (HR x y Hxy) as (Hm & Hp & _).
  unfold key at 1 3; rewrite Hm, Hp, IH; reflexivity.
Qed.

Lemma update_keys (qs : QuerySet) (flag : bool) (stamp : option Timestamp) (w : World) :
  map key (db (snd (update qs flag stamp w))) = map key (db w).
Proof.
  simpl; rewrite map_map; apply map_ext; intros e.
  destruct (selects qs e); reflexivity.
Qed.

Lemma save_keys (self : Entity) (w : World) :
  map key (db (snd (save self w)))
  = if existsb (same_key self) (db w)
    then map key (db w)
    else (map key (db w) ++ [key self])%list.
Proof.
  simpl; destruct (existsb (same_key self) (db w)).
  - rewrite map_map; apply map_ext; intros e.
    destruct (same_key self e) eqn:Hk; [|reflexivity].
    apply same_key_true in Hk; destruct Hk as [Hm Hp].
    unfold key; rewrite Hm, Hp; reflexivity.
  - rewrite map_app; reflexivity.
Qed.

Lemma cleared_consistent (l l' : list Entity) :
  Forall flags_agree l -> Forall2 cleared l l' -> l' = l.
Proof.
  intros Hl H; induction H as [|x y l l' Hxy _ IH]; [reflexivity|].
  inversion Hl as [|? ? Hx Hl']; subst.
  rewrite (IH Hl'); f_equal.
  destruct Hxy as [->|[Hf ->]]; [reflexivity|].
  apply set_flags_clean; [exact Hf|apply Hx; exact Hf].
Qed.

(** X7.  The per-record [restore()] is idempotent: a second call on the
    record the first call left answers the same record in the same world,
    and issues no statement. *)
Theorem restore_idempotent (meta : ModelName -> Options) (cache : PrefetchCache) (self : Entity) (w : World) :
  SoftDeleteModel.restore meta cache
    (fst (SoftDeleteModel.restore meta cache self w))
    (snd (SoftDeleteModel.restore meta cache self w))
  = SoftDeleteModel.restore meta cache self w.
Proof.
  destruct (is_deleted self) eqn:Hflag.
  - rewrite (restore_deleted meta cache self w Hflag); cbn [fst snd].
    apply restore_active; reflexivity.
  - rewrite (restore_active meta cache self w Hflag); cbn [fst snd].
    apply restore_active; exact Hflag.
Qed.

(** X8.  No soft operation removes a row or changes a key.  The bulk
    [delete()] and [restore()] keep the keys of the database as they are,
    in order; the per-record [delete()] and [restore()] do so too, and add
    one row, the record itself, only when they pass their guard on an
    instance that has no stored row. *)
Theorem soft_operations_keep_keys
        (clock : nat -> Timestamp) (meta : ModelName -> Options) (cache : PrefetchCache)
        (self : Entity) (qs : QuerySet) (w : World) :
  map key (db (snd (SoftDeleteModel.delete clock meta cache self w)))
  = (if is_deleted self || existsb (same_key self) (db w)
     then map key (db w)
     else (map key (db w) ++ [key self])%list)
  /\ map key (db (snd (SoftDeleteModel.restore meta cache self w)))
     = (if negb (is_deleted self) || existsb (same_key self) (db w)
        then map key (db w)
        else (map key (db w) ++ [key self])%list)
  /\ map key (db (snd (SoftDeleteQuerySet.delete clock qs w))) = map key (db w)
  /\ map key (db (snd (SoftDeleteQuerySet.restore qs w))) = map key (db w).
Proof.
  split; [|split; [|split]].
  - destruct (is_deleted self) eqn:Hflag; simpl.
    + rewrite (soft_delete_deleted clock meta cache self w Hflag); reflexivity.
    + destruct (delete_active_rows clock meta cache self w Hflag) as [_ HF].
      rewrite (Forall2_keys _ _ _ (flagged_shape clock meta self _ _) HF).
      exact (save_keys (set_flags true (Some (clock (reads w))) self)
                       (snd (now clock w))).
  - destruct (is_deleted self) eqn:Hflag; simpl.
    + destruct (restore_deleted_rows meta cache self w Hflag) as [_ HF].
      rewrite (Forall2_keys _ _ _ rewound_shape HF).
      exact (save_keys (set_flags false None self) w).
    + rewrite (restore_active meta cache self w Hflag); reflexivity.
  - unfold SoftDeleteQuerySet.delete, SoftDeleteQuerySet._soft_delete.
    rewrite bind_run.
    exact (update_keys qs true (Some (fst (now clock w))) (snd (now clock w))).
  - apply update_keys.
Qed.

(** X9.  The flags of the stored rows move one way only: [delete()] on a
    record leaves every row that was flagged deleted flagged deleted, and
    [restore()] leaves every row that was active active. *)
Theorem flags_move_one_way
        (clock : nat -> Timestamp) (meta : ModelName -> Options) (cache : PrefetchCache)
        (self : Entity) (w : World) (i : nat) (e : Entity)
        (Hi : nth_error (db w) i = Some e) :
  (is_deleted e = true ->
   exists e', nth_error (db (snd (SoftDeleteModel.delete clock meta cache self w))) i = Some e'
              /\ key e' = key e /\ is_deleted e' = true)
  /\ (is_deleted e = false ->
      exists e', nth_error (db (snd (SoftDeleteModel.restore meta cache self w))) i = Some e'
                 /\ key e' = key e /\ is_deleted e' = false).
Proof.
  split; intros He.
  - destruct (is_deleted self) eqn:Hflag.
    + rewrite (soft_delete_deleted clock meta cache self w Hflag); exists e; auto.
    + destruct (delete_active_rows clock meta cache self w Hflag) as [_ HF].
      pose proof (save_at (set_flags true (Some (clock (reads w))) self)
                          (snd (now clock w)) i e Hi) as Hi1.
      destruct (Forall2_at _ _ _ i _ HF Hi1) as (e' & Hi' & Hfl).
      exists e'; split; [exact Hi'|].
      destruct (flagged_shape _ _ _ _ _ _ _ Hfl) as (Hm & Hp & _).
      split.
      * unfold key; rewrite Hm, Hp.
        destruct (same_key _ e) eqn:Hk; [|reflexivity].
        apply same_key_true in Hk; destruct Hk as [Hm' Hp'].
        simpl in Hm', Hp'; simpl; rewrite Hm', Hp'; reflexivity.
      * eapply flagged_monotone; [exact Hfl|].
        destruct (same_key _ e); [reflexivity|exact He].
  - destruct (is_deleted self) eqn:Hflag.
    + destruct (restore_deleted_rows meta cache self w Hflag) as [_ HF].
      pose proof (save_at (set_flags false None self) w i e Hi) as Hi1.
      destruct (Forall2_at _ _ _ i _ HF Hi1) as (e' & Hi' & Hcl).
      exists e'; split; [exact Hi'|].
      destruct (rewound_shape _ _ Hcl) as (Hm & Hp & _).
      split.
      * unfold key; rewrite Hm, Hp.
        destruct (same_key _ e) eqn:Hk; [|reflexivity].
        apply same_key_true in Hk; destruct Hk as [Hm' Hp'].
        simpl in Hm', Hp'; simpl; rewrite Hm', Hp'; reflexivity.
      * destruct Hcl as [->| ->]; [|reflexivity].
        destruct (same_key _ e); [reflexivity|exact He].
    + rewrite (restore_active meta cache self w Hflag); exists e; auto.
Qed.

Lemma flags_move_one_way_witness :
  (true = true ->
   exists e', nth_error (db (snd (SoftDeleteModel.delete Library.clock Library.meta Library.no_cache
                                    Library.author1 Library.w0))) 3 = Some e'
              /\ key e' = ("Book", 2) /\ is_deleted e' = true)
  /\ (true = false ->
      exists e', nth_error (db (snd (SoftDeleteModel.restore Library.meta Library.no_cache
                                       Library.author1 Library.w0))) 3 = Some e'
                 /\ key e' = ("Book", 2) /\ is_deleted e' = false).
Proof.
  exact (@flags_move_one_way Library.clock Library.meta Library.no_cache Library.author1 Library.w0
           3 (mkEntity "Book" 2 [("author", 1)] true (Some 5%Z)) eq_refl).
Defined.

(** X10.  On a database whose rows have their two flags in agreement, and
    for an instance that carries no prefetch cache, [restore()] on a
    deleted record changes the database exactly as saving the cleared
    record does: the UPDATEs of its cascade change no row.  It reads no
    clock. *)
Theorem restore_cascade_changes_nothing
        (meta : ModelName -> Options) (cache : PrefetchCache) (self : Entity) (w : World)
        (Hdeleted : is_deleted self = true)
        (Hdb : Forall flags_agree (db w))
        (Hnocache : forall related,
            In related (related_objects (meta (model self))) ->
            cache related = None) :
  db (snd (SoftDeleteModel.restore meta cache self w))
  = db (snd (save (set_flags false None self) w))
  /\ reads (snd (SoftDeleteModel.restore meta cache self w)) = reads w.
Proof.
  destruct (restore_deleted_rows meta cache self w Hdeleted) as [Hr _].
  split; [|exact Hr].
  apply cleared_consistent;
    [|exact (restore_deleted_rows_uncached meta cache self w Hdeleted Hnocache)].
  apply save_keeps_agreement; [apply flags_agree_clear|exact Hdb].
Qed.

Lemma restore_cascade_changes_nothing_witness :
  let d := SoftDeleteModel.delete Library.clock Library.meta Library.no_cache
             Library.author1 Library.w0 in
  db (snd (SoftDeleteModel.restore Library.meta Library.no_cache (fst d) (snd d)))
  = db (snd (save (set_flags false None (fst d)) (snd d)))
  /\ reads (snd (SoftDeleteModel.restore Library.meta Library.no_cache (fst d) (snd d)))
     = reads (snd d).
Proof.
  cbv zeta.
  refine (@restore_cascade_changes_nothing Library.meta Library.no_cache
            (fst (SoftDeleteModel.delete Library.clock Library.meta Library.no_cache
                    Library.author1 Library.w0))
            (snd (SoftDeleteModel.delete Library.clock Library.meta Library.no_cache
                    Library.author1 Library.w0)) eq_refl _ (fun _ _ => eq_refl)).
  apply Forall_forall; intros e He; apply flags_agreeb_spec.
  revert e He; apply Forall_forall.
  vm_compute; repeat (constructor; [reflexivity|]); constructor.
Defined.

(** With a prefetch cache the UPDATE of line 97 goes to the cached
    queryset: on an author loaded with all its reviews prefetched,
    [restore()] after [delete()] brings review 2 back, which had been
    deleted before the author was. *)
Lemma restore_follows_the_cache :
  let d := SoftDeleteModel.delete Library.clock Library.meta Library.no_cache
             Library.author1 Library.w0 in
  nth_error (db (snd d)) 7
  = Some (mkEntity "Review" 2 [("author", 1)] true (Some 7%Z))
  /\ nth_error (db (snd (SoftDeleteModel.restore Library.meta Library.prefetched
                           (fst d) (snd d)))) 7
     = Some (new_entity "Review" 2 [("author", 1)]).
Proof. split; reflexivity. Qed.

(** ** More on the cascade of [delete()] *)

Section Rounds.
Variable clock : nat -> Timestamp.
Variable meta : ModelName -> Options.
Variable cache : PrefetchCache.

(** Each round that passes the guards reads the clock once and issues one
    statement. *)
Lemma soft_delete_loop_counts (self : Entity) (l : list ForeignObjectRel) (w : World) :
  reads (snd (for_each l (SoftDeleteModel.soft_delete_related clock meta cache self) w))
  = reads w + List.length (filter (cascadesb meta) l)
  /\ List.length
       (writes (snd (for_each l (SoftDeleteModel.soft_delete_related clock meta cache self) w)))
     = List.length (writes w) + List.length (filter (cascadesb meta) l).
Proof.
  revert w; induction l as [|a l IH]; intros w; [simpl; split; lia|].
  rewrite for_each_cons.
  destruct (IH (snd (SoftDeleteModel.soft_delete_related clock meta cache self a w)))
    as [Hr Hw].
  rewrite Hr, Hw, soft_delete_related_run; simpl.
  destruct (cascadesb meta a); simpl; [|split; lia].
  rewrite length_app; simpl; split; lia.
Qed.

(** A row that no round selects stays in place through the loop. *)
Lemma soft_delete_loop_spares (self : Entity) (l : list ForeignObjectRel)
      (w : World) (i : nat) (e : Entity) :
  (forall related, In related l -> cascadesb meta related = true ->
     selects (all (SoftDeleteModel.reverse_manager meta cache self related)) e = false) ->
  nth_error (db w) i = Some e ->
  nth_error (db (snd (for_each l (SoftDeleteModel.soft_delete_related clock meta cache self) w))) i
  = Some e.
Proof.
  intros Hno Hi.
  apply (for_each_keeps (fun w' => nth_error (db w') i = Some e)); [|exact Hi].
  intros b w' Hb Hi'; rewrite soft_delete_related_run; simpl.
  destruct (cascadesb meta b) eqn:Hcb; [|exact Hi'].
  simpl; rewrite nth_error_map, Hi'; simpl.
  rewrite (Hno b Hb Hcb); reflexivity.
Qed.

End Rounds.

(** X11.  Where every cascading relation through which a record points at
    [self] has a [SoftDeleteManager] behind its accessor, and [self]
    carries no prefetch cache for it, [delete()] on [self] leaves the
    record as it is when it was already deleted: the UPDATE goes to the
    active rows, and the time of the earlier deletion is kept. *)
Theorem delete_spares_deleted_under_soft_manager
        (clock : nat -> Timestamp) (meta : ModelName -> Options) (cache : PrefetchCache)
        (self : Entity) (w : World) (i : nat) (e : Entity)
        (Hi : nth_error (db w) i = Some e)
        (Hflag : is_deleted e = true)
        (Hother : same_key self e = false)
        (Hmanagers : forall related,
            In related (related_objects (meta (model self))) ->
            cascadesb meta related = true ->
            selects (pointing_at related (pk self)) e = true ->
            default_manager_class (meta (related_model related))
            = SoftDeleteManagerClass
            /\ cache related = None) :
  nth_error (db (snd (SoftDeleteModel.delete clock meta cache self w))) i = Some e.
Proof.
  destruct (is_deleted self) eqn:Hself.
  - rewrite (soft_delete_deleted clock meta cache self w Hself); exact Hi.
  - rewrite (soft_delete_active clock meta cache self w Hself); cbn [snd].
    apply soft_delete_loop_spares.
    + intros related Hin Hcb; rewrite selects_all.
      destruct (selects (pointing_at related
                           (pk (set_flags true (Some (clock (reads w))) self))) e)
        eqn:Hsel.
      * destruct (Hmanagers related Hin Hcb Hsel) as [-> ->].
        rewrite Hflag; reflexivity.
      * destruct (cache related); [apply andb_false_r|].
        destruct (default_manager_class (meta (related_model related)));
          [reflexivity|apply andb_false_r].
    + pose proof (save_at (set_flags true (Some (clock (reads w))) self)
                          (snd (now clock w)) i e Hi) as Hi1.
      change (same_key (set_flags true (Some (clock (reads w))) self) e)
        with (same_key self e) in Hi1.
      rewrite Hother in Hi1; exact Hi1.
Qed.

Lemma delete_spares_deleted_under_soft_manager_witness :
  nth_error (db (snd (SoftDeleteModel.delete Library.clock Library.meta Library.no_cache
                        Library.author1 Library.w0))) 7
  = Some (mkEntity "Review" 2 [("author", 1)] true (Some 7%Z)).
Proof.
  refine (@delete_spares_deleted_under_soft_manager Library.clock Library.meta Library.no_cache
            Library.author1 Library.w0 7
            (mkEntity "Review" 2 [("author", 1)] true (Some 7%Z))
            eq_refl eq_refl eq_refl _).
  intros related Hin Hcb Hsel; simpl in Hin.
  destruct Hin as [<-|[<-|[<-|[<-|[<-|[]]]]]];
    try discriminate Hsel; try discriminate Hcb; split; reflexivity.
Defined.

(** X12.  [delete()] on an active record reads the clock once for the
    record and once more for each relation that passes the guards of lines
    68, 71 and 74, and issues one save followed by one UPDATE for each of
    these relations: the related records carry later readings than the
    record itself. *)
Theorem delete_counts_rounds
        (clock : nat -> Timestamp) (meta : ModelName -> Options) (cache : PrefetchCache)
        (self : Entity) (w : World)
        (Hactive : is_deleted self = false) :
  reads (snd (SoftDeleteModel.delete clock meta cache self w))
  = reads w + 1
    + List.length (filter (cascadesb meta) (related_objects (meta (model self))))
  /\ List.length (writes (snd (SoftDeleteModel.delete clock meta cache self w)))
     = List.length (writes w) + 1
       + List.length (filter (cascadesb meta) (related_objects (meta (model self)))).
Proof.
  rewrite (soft_delete_active clock meta cache self w Hactive); cbn [snd].
  destruct (soft_delete_loop_counts clock meta cache
              (set_flags true (Some (clock (reads w))) self)
              (related_objects (meta (model self)))
              (saved_deleted clock self w)) as [Hr Hw].
  unfold saved_deleted in Hr, Hw; rewrite Hr, Hw; simpl.
  rewrite length_app; simpl; split; lia.
Qed.

Lemma delete_counts_rounds_witness :
  reads (snd (SoftDeleteModel.delete Library.clock Library.meta Library.no_cache
                Library.author1 Library.w0)) = 3
  /\ List.length (writes (snd (SoftDeleteModel.delete Library.clock Library.meta Library.no_cache
                                 Library.author1 Library.w0))) = 3.
Proof.
  exact (@delete_counts_rounds Library.clock Library.meta Library.no_cache
           Library.author1 Library.w0 eq_refl).
Defined.

(** X13.  [delete()] on an active instance writes the instance over the
    stored row, whatever the row held: the guard of line 62 reads the
    instance, so a row that another instance had already deleted gets the
    new timestamp and the fields of this instance.  (The record is taken
    not to point at itself through a cascading relation.) *)
Theorem delete_overwrites_stored_row
        (clock : nat -> Timestamp) (meta : ModelName -> Options) (cache : PrefetchCache)
        (self : Entity) (w : World) (i : nat) (e : Entity)
        (Hactive : is_deleted self = false)
        (Hi : nth_error (db w) i = Some e)
        (Hkey : same_key self e = true)
        (Hself : ~ cascades_to meta self self) :
  nth_error (db (snd (SoftDeleteModel.delete clock meta cache self w))) i
  = Some (set_flags true (Some (clock (reads w))) self).
Proof.
  destruct (delete_active_rows clock meta cache self w Hactive) as [_ HF].
  pose proof (save_at (set_flags true (Some (clock (reads w))) self)
                      (snd (now clock w)) i e Hi) as Hi1.
  change (same_key (set_flags true (Some (clock (reads w))) self) e)
    with (same_key self e) in Hi1.
  rewrite Hkey in Hi1.
  destruct (Forall2_at _ _ _ i _ HF Hi1) as (e' & Hi' & [->|(Hc & _)]);
    [exact Hi'|].
  exfalso; apply Hself.
  destruct Hc as (related & H1 & H2 & H3 & H4 & H5).
  exists related; repeat split; auto.
Qed.

Lemma delete_overwrites_stored_row_witness :
  nth_error (db (snd (SoftDeleteModel.delete Library.clock Library.meta Library.no_cache
                        (new_entity "Book" 2 [("author", 2)]) Library.w0))) 3
  = Some (mkEntity "Book" 2 [("author", 2)] true (Some 100%Z)).
Proof.
  refine (@delete_overwrites_stored_row Library.clock Library.meta Library.no_cache
            (new_entity "Book" 2 [("author", 2)]) Library.w0 3
            (mkEntity "Book" 2 [("author", 1)] true (Some 5%Z))
            eq_refl eq_refl eq_refl _).
  intros (related & Hin & _ & _ & _ & Hsel); simpl in Hin.
  destruct Hin as [<-|[]]; discriminate Hsel.
Defined.

(** ** Visibility through the managers *)

Lemma round_trip_rows
      (clock : nat -> Timestamp) (meta : ModelName -> Options) (cache : PrefetchCache)
      (self : Entity) (w : World) :
  is_deleted self = false -> deleted_at self = None ->
  In self (db (snd (SoftDeleteModel.restore meta cache
                      (fst (SoftDeleteModel.delete clock meta cache self w))
                      (snd (SoftDeleteModel.delete clock meta cache self w)))))
  /\ (forall e,
         In e (db (snd (SoftDeleteModel.restore meta cache
                          (fst (SoftDeleteModel.delete clock meta cache self w))
                          (snd (SoftDeleteModel.delete clock meta cache self w))))) ->
         same_key self e = true -> e = self).
Proof.
  intros Hactive Hnull.
  rewrite (soft_delete_active clock meta cache self w Hactive); cbn [fst snd].
  set (self' := set_flags true (Some (clock (reads w))) self).
  set (w' := snd (for_each _ _ _)).
  assert (Hdel : is_deleted self' = true) by reflexivity.
  assert (Hback : set_flags false None self' = self)
    by (change (set_flags false None self = self);
        apply set_flags_clean; assumption).
  destruct (restore_deleted_rows meta cache self' w' Hdel) as [_ HF].
  unfold saved_restored in HF; rewrite Hback in HF.
  split.
  - destruct (Forall2_pick_l _ _ _ _ HF (save_stores self w')) as (y & Hy & Hsy).
    rewrite (rewound_clean self y Hactive Hnull Hsy) in Hy; exact Hy.
  - intros e He Hk.
    destruct (Forall2_pick_r _ _ _ e HF He) as (x & Hx & Hxe).
    destruct (rewound_shape _ _ Hxe) as (Hm & Hp & _).
    rewrite (same_key_along self _ _ Hm Hp) in Hk.
    rewrite (save_under_key self w' x Hx Hk) in Hxe.
    exact (rewound_clean self e Hactive Hnull Hxe).
Qed.

(** X14.  A record that is deleted and then restored is back in the default
    enumeration of its model, and no row under its key is answered by
    [deleted_only()]. *)
Theorem delete_restore_visible_again
        (clock : nat -> Timestamp) (meta : ModelName -> Options) (cache : PrefetchCache)
        (self : Entity) (w : World)
        (Hactive : is_deleted self = false) (Hnull : deleted_at self = None) :
  let d := SoftDeleteModel.delete clock meta cache self w in
  let r := SoftDeleteModel.restore meta cache (fst d) (snd d) in
  In self (rows (SoftDeleteManager.get_queryset (model self)) (db (snd r)))
  /\ (forall e, In e (rows (SoftDeleteManager.deleted_only (model self)) (db (snd r))) ->
                same_key self e = false).
Proof.
  intros d r; subst r d.
  destruct (round_trip_rows clock meta cache self w Hactive Hnull) as [Hin Honly].
  split.
  - unfold rows; apply filter_In; split; [exact Hin|].
    rewrite selects_active, String.eqb_refl, Hactive; reflexivity.
  - intros e He; unfold rows in He; apply filter_In in He; destruct He as [He Hsel].
    destruct (same_key self e) eqn:Hk; [|reflexivity].
    rewrite (Honly e He Hk), selects_deleted, Hactive, andb_false_r in Hsel.
    discriminate.
Qed.

Lemma delete_restore_visible_again_witness :
  let d := SoftDeleteModel.delete Library.clock Library.meta Library.no_cache
             Library.author1 Library.w0 in
  In Library.author1
     (rows (SoftDeleteManager.get_queryset "Author")
        (db (snd (SoftDeleteModel.restore Library.meta Library.no_cache (fst d) (snd d))))).
Proof.
  exact (proj1 (@delete_restore_visible_again Library.clock Library.meta Library.no_cache
                  Library.author1 Library.w0 eq_refl eq_refl)).
Defined.

Lemma selects_pointing_at (related : ForeignObjectRel) (k : nat) (e : Entity) :
  selects (pointing_at related k) e = true
  <-> model e = related_model related /\ ref_of (rel_field related) (refs e) = Some k.
Proof.
  unfold selects; simpl; rewrite andb_true_iff, andb_true_r, String.eqb_eq.
  destruct (ref_of (rel_field related) (refs e)) as [k'|].
  - rewrite Nat.eqb_eq; split; intros [Hm Hk]; split; congruence.
  - split; intros [Hm Hk]; discriminate.
Qed.

(** X15.  On a related manager that is a [SoftDeleteManager], [all()]
    answers the active records of the related model that point at the
    instance when the instance carries no prefetch cache for the accessor,
    and the records of the prefetched queryset that point at the instance
    when it does; [deleted_only()] answers every deleted record of the
    related model, also those that point at another instance, cache or no
    cache: it builds its queryset from the model and the filter of the
    relation is not applied. *)
Theorem related_deleted_only_ignores_relation
        (meta : ModelName -> Options) (cache : PrefetchCache) (self : Entity)
        (related : ForeignObjectRel) (table : list Entity)
        (Hmanager : default_manager_class (meta (related_model related))
                    = SoftDeleteManagerClass) :
  (cache related = None ->
   forall e,
     In e (rows (all (SoftDeleteModel.reverse_manager meta cache self related)) table)
     <-> In e table /\ model e = related_model related
         /\ ref_of (rel_field related) (refs e) = Some (pk self)
         /\ is_deleted e = false)
  /\ (forall prefetched e,
         cache related = Some prefetched ->
         In e (rows (all (SoftDeleteModel.reverse_manager meta cache self related)) table)
         <-> In e table /\ model e = related_model related
             /\ ref_of (rel_field related) (refs e) = Some (pk self)
             /\ forallb (fun l => holds l e) prefetched = true)
  /\ (forall e,
         In e (rows (deleted_only (SoftDeleteModel.reverse_manager meta cache self related))
                 table)
         <-> In e table /\ model e = related_model related /\ is_deleted e = true).
Proof.
  split; [|split].
  - intros Hnocache e; unfold rows; rewrite filter_In.
    rewrite selects_all, Hnocache, Hmanager, andb_true_iff, negb_true_iff,
      selects_pointing_at.
    tauto.
  - intros prefetched e Hcached; unfold rows; rewrite filter_In.
    rewrite selects_all, Hcached, andb_true_iff, selects_pointing_at.
    tauto.
  - intros e; unfold rows; rewrite filter_In.
    unfold deleted_only; simpl mgr_model.
    rewrite selects_deleted, andb_true_iff, String.eqb_eq; tauto.
Qed.

Lemma related_deleted_only_ignores_relation_witness :
  In (mkEntity "Review" 9 [("author", 2)] true (Some 3%Z))
     (rows (deleted_only (SoftDeleteModel.reverse_manager Library.meta Library.no_cache
                            Library.author1
                            (mkRel CASCADE ManyToOneRel "Review" "author")))
        (mkEntity "Review" 9 [("author", 2)] true (Some 3%Z) :: Library.rows0))
  /\ (In (mkEntity "Review" 2 [("author", 1)] true (Some 7%Z))
         (rows (all (SoftDeleteModel.reverse_manager Library.meta Library.no_cache
                       Library.author1
                       (mkRel CASCADE ManyToOneRel "Review" "author")))
            Library.rows0)
       <-> In (mkEntity "Review" 2 [("author", 1)] true (Some 7%Z)) Library.rows0
           /\ "Review" = "Review" /\ Some 1 = Some 1 /\ true = false).
Proof.
  split.
  - apply (proj2 (proj2 (@related_deleted_only_ignores_relation Library.meta
                           Library.no_cache Library.author1
                           (mkRel CASCADE ManyToOneRel "Review" "author")
                           (mkEntity "Review" 9 [("author", 2)] true (Some 3%Z)
                              :: Library.rows0)
                           eq_refl))).
    split; [left; reflexivity|split; reflexivity].
  - exact (proj1 (@related_deleted_only_ignores_relation Library.meta
                    Library.no_cache Library.author1
                    (mkRel CASCADE ManyToOneRel "Review" "author")
                    Library.rows0 eq_refl)
                 eq_refl
                 (mkEntity "Review" 2 [("author", 1)] true (Some 7%Z))).
Defined.

(** ** Physical delete of a queryset *)

Lemma delete_rows_removes (qs : QuerySet) (w : World) (e : Entity) :
  In e (db (snd (delete_rows qs w))) <-> In e (db w) /\ selects qs e = false.
Proof. simpl; rewrite filter_In, negb_true_iff; tauto. Qed.

(** X16.  [hard_delete()] on a queryset is the physical delete of the
    persistence layer.  When that delete removes the rows the queryset
    selects and no other, a [hard_delete()] through the queryset of the
    default manager removes the active rows of the model only: the rows
    flagged deleted are not selected, stay in the database, and are still
    answered by [deleted_only()]. *)
Theorem queryset_hard_delete_keeps_deleted
        (QuerySet_delete : QuerySet -> M nat) (m : ModelName) (w : World)
        (Hphysical : forall qs w0 e,
            In e (db (snd (QuerySet_delete qs w0)))
            <-> In e (db w0) /\ selects qs e = false) :
  let w' := snd (SoftDeleteQuerySet.hard_delete QuerySet_delete
                   (SoftDeleteManager.get_queryset m) w) in
  rows (SoftDeleteManager.get_queryset m) (db w') = []
  /\ (forall e, In e (rows (SoftDeleteManager.deleted_only m) (db w'))
                <-> In e (rows (SoftDeleteManager.deleted_only m) (db w)))
  /\ (forall e, In e (db w') <-> In e (db w) /\ (model e = m -> is_deleted e = true)).
Proof.
  intros w'; subst w'; unfold SoftDeleteQuerySet.hard_delete.
  assert (Hkept : forall e,
             In e (db (snd (QuerySet_delete (SoftDeleteManager.get_queryset m) w)))
             <-> In e (db w) /\ (model e = m -> is_deleted e = true)).
  { intros e; rewrite Hphysical, selects_active.
    destruct (String.eqb_spec (model e) m) as [Hm|Hm];
      destruct (is_deleted e); simpl; intuition congruence. }
  split; [|split; [|exact Hkept]].
  - apply filter_none; intros e He.
    apply Hphysical in He; tauto.
  - intros e; unfold rows; rewrite !filter_In, Hkept, selects_deleted,
      andb_true_iff, String.eqb_eq; tauto.
Qed.

Lemma queryset_hard_delete_keeps_deleted_witness :
  rows (SoftDeleteManager.get_queryset "Book")
       (db (snd (SoftDeleteQuerySet.hard_delete delete_rows
                   (SoftDeleteManager.get_queryset "Book") Library.w0))) = []
  /\ In (mkEntity "Book" 2 [("author", 1)] true (Some 5%Z))
        (rows (SoftDeleteManager.deleted_only "Book")
           (db (snd (SoftDeleteQuerySet.hard_delete delete_rows
                       (SoftDeleteManager.get_queryset "Book") Library.w0)))).
Proof.
  destruct (@queryset_hard_delete_keeps_deleted delete_rows "Book" Library.w0
              delete_rows_removes) as (Hnone & Hdel & _).
  split; [exact Hnone|].
  apply Hdel; simpl; auto.
Defined.
